(** * EPP_Viz: the query-and-resample pipeline of [main.py]

    A shallow embedding of [src/main.py]: the memoised [get_db_data]
    (fetch, hourly resampling, forward fill, organisation-name
    normalisation) and the three chart endpoints built on it.

    Conventions of the embedding.
    - Timestamps are integers counting nanoseconds (the resolution of a
      pandas [datetime64[ns]] column); an hour label is the timestamp of
      the start of the hour.
    - A cell of a data frame is an [option]: [None] is pandas' missing
      value (NaN / None).
    - The numeric columns hold exact rationals ([Q]); the rounding of the
      binary floating point numbers pandas computes with is outside the
      embedding, and no statement below rests on the value of a sum or
      a mean other than at numbers that binary floating point holds
      exactly.
    - pandas is not pinned by the repository and its upsampling differs
      between pandas 2 and pandas 3; the embedding carries the version as
      the parameter [relabel_hourly], and the theorems hold for both.
    - Python text is a [string] whose characters are code points below 256.
    - Raising is explicit: a computation yields [Return v] or [Raise e]. *)

From Stdlib Require Import ZArith QArith Qreduction List String Ascii Bool Lia.
From Stdlib Require Import DecimalString Finite OrdersEx.
Import ListNotations.

Set Implicit Arguments.

Local Open Scope string_scope.
Local Open Scope Z_scope.

(* ================================================================== *)
(** ** Python values, exceptions and text *)
(* ================================================================== *)

Module Py.

(** The two kinds of object the handlers pass as [org_id]: the raw path
    segment (a [str]) and, for the summary endpoint, the [int] FastAPI
    coerces it to. *)
Inductive value : Type :=
| PyStr (s : string)
| PyInt (n : Z).

(** Python's [==] on these objects: a [str] never equals an [int]. *)
Definition value_eqb (a b : value) : bool :=
  match a, b with
  | PyStr s, PyStr t => String.eqb s t
  | PyInt m, PyInt n => Z.eqb m n
  | _, _ => false
  end.

(** Equality of argument tuples, component by component. *)
Fixpoint args_eqb (a b : list value) : bool :=
  match a, b with
  | [], [] => true
  | x :: a', y :: b' => value_eqb x y && args_eqb a' b'
  | _, _ => false
  end.

(** Exceptions, as far as the program tells them apart: FastAPI's
    [HTTPException] with its status code and detail, and every other
    exception, of which only [str(e)] is ever used. *)
Inductive exn : Type :=
| Exception (msg : string)
| HTTPException (status_code : Z) (detail : string).

Inductive result (A : Type) : Type :=
| Return (a : A)
| Raise (e : exn).

Arguments Return {A} a.
Arguments Raise {A} e.

Definition bind {A B : Type} (m : result A) (k : A -> result B) : result B :=
  match m with
  | Return a => k a
  | Raise e => Raise e
  end.

(** [try m except Exception as e: raise h e] *)
Definition try_except {A : Type} (m : result A) (h : exn -> exn) : result A :=
  match m with
  | Return a => Return a
  | Raise e => Raise (h e)
  end.

(** The value a computation returns, if it returns. *)
Definition returned {A : Type} (m : result A) : option A :=
  match m with
  | Return a => Some a
  | Raise _ => None
  end.

(** [str(n)] for an [int]. *)
Definition str_int (n : Z) : string := NilZero.string_of_int (Z.to_int n).

Definition hex_digit (n : N) : ascii :=
  if (n <? 10)%N then ascii_of_N (48 + n) else ascii_of_N (87 + n).

(** The escape [\xhh] of a code point below 256. *)
Definition hex_escape (c : ascii) : string :=
  let n := N_of_ascii c in
  String "\" (String "x"
    (String (hex_digit (n / 16)) (String (hex_digit (n mod 16)) EmptyString))).

(** [str.isprintable] on code points below 256. *)
Definition isprintable (c : ascii) : bool :=
  let n := N_of_ascii c in
  ((32 <=? n) && (n <? 127) || (161 <=? n) && negb (n =? 173))%N.

Definition contains (c : ascii) (s : string) : bool :=
  existsb (Ascii.eqb c) (list_ascii_of_string s).

Definition repr_char (quote c : ascii) : string :=
  if Ascii.eqb c quote || Ascii.eqb c "\" then String "\" (String c EmptyString)
  else if Ascii.eqb c "009" then "\t"
  else if Ascii.eqb c "010" then "\n"
  else if Ascii.eqb c "013" then "\r"
  else if isprintable c then String c EmptyString
  else hex_escape c.

(** [repr(s)] for a [str]: single quotes, unless the text holds a single
    quote and no double quote. *)
Definition repr_str (s : string) : string :=
  let quote : ascii :=
    if contains "'" s && negb (contains "034" s) then "034"%char else "'"%char in
  String quote
    (String.concat "" (map (repr_char quote) (list_ascii_of_string s))
     ++ String quote EmptyString).

Definition repr (v : value) : string :=
  match v with
  | PyStr s => repr_str s
  | PyInt n => str_int n
  end.

(** [str(v)]; this is what an f-string field prints. *)
Definition str (v : value) : string :=
  match v with
  | PyStr s => s
  | PyInt n => str_int n
  end.

(** [str({v})]: the text of a set display with the single element [v]. *)
Definition str_set1 (v : value) : string := "{" ++ repr v ++ "}".

(** [str(e)]. Starlette's [HTTPException.__str__] prints
    ["<status_code>: <detail>"]. *)
Definition str_exn (e : exn) : string :=
  match e with
  | Exception msg => msg
  | HTTPException c d => str_int c ++ ": " ++ d
  end.

End Py.

Import Py.

Notation "x <- m ;; k" := (Py.bind m (fun x => k))
  (at level 61, m at next level, right associativity).

(* ================================================================== *)
(** ** [functools.lru_cache] *)
(* ================================================================== *)

Module LruCache.
Section Wrapper.

Variables K V : Type.
Variable key_eqb : K -> K -> bool.

(** The cache: the entries from the most recently used to the least
    recently used one (the order of the linked list the wrapper keeps),
    and the two counters [cache_info()] reports. *)
Record state : Type := mk_state {
  entries : list (K * V);
  hits : nat;
  misses : nat
}.

Definition empty : state := mk_state [] 0 0.

Fixpoint cache_get (k : K) (l : list (K * V)) : option V :=
  match l with
  | [] => None
  | (k', v) :: l' => if key_eqb k k' then Some v else cache_get k l'
  end.

Definition differs (k k' : K) : bool := negb (key_eqb k k').

Definition cache_del (k : K) (l : list (K * V)) : list (K * V) :=
  filter (fun e => differs k (fst e)) l.

Definition keys (st : state) : list K := map fst (entries st).

(** The object stored under [k] now holds [v]: the cache keeps a
    reference to the object it returned, so whatever a caller does to
    that object is what the entry holds afterwards. *)
Definition cache_set (k : K) (v : V) (l : list (K * V)) : list (K * V) :=
  map (fun e => if key_eqb k (fst e) then (fst e, v) else e) l.

Definition alias_update (k : K) (v : V) (st : state) : state :=
  mk_state (cache_set k v (entries st)) (hits st) (misses st).

(** One call of the wrapped function with key [k]. [outcome] is what the
    user function does when (and only when) the wrapper invokes it.
    - hit: the link moves to the front, [hits] grows, the stored result
      is returned;
    - miss: [misses] grows, the user function runs; an exception leaves
      the cache alone; a result is stored at the front, and when the
      cache is full the entry at the far end is dropped.
    With [maxsize = 0] the wrapper only counts and calls. *)
Definition call (maxsize : nat) (k : K) (outcome : result V) (st : state)
  : result V * state :=
  match maxsize with
  | O => (outcome, mk_state (entries st) (hits st) (S (misses st)))
  | S _ =>
    match cache_get k (entries st) with
    | Some v =>
      (Return v,
       mk_state ((k, v) :: cache_del k (entries st)) (S (hits st)) (misses st))
    | None =>
      match outcome with
      | Raise e => (Raise e, mk_state (entries st) (hits st) (S (misses st)))
      | Return v =>
        let full := (maxsize <=? List.length (entries st))%nat in
        (Return v,
         mk_state
           (if full then (k, v) :: removelast (entries st)
            else (k, v) :: entries st)
           (hits st) (S (misses st)))
      end
    end
  end.

(** A sequence of calls, in the order they are made. *)
Definition run (maxsize : nat) (calls : list (K * result V)) (st : state) : state :=
  fold_left (fun s c => snd (call maxsize (fst c) (snd c) s)) calls st.

(** The distinct keys of a history (latest call first), each at the
    place of its latest use. *)
Fixpoint recency (l : list K) : list K :=
  match l with
  | [] => []
  | k :: l' => k :: filter (differs k) (recency l')
  end.

(** The eviction policy in the words of the specification ("insertion
    beyond capacity evicts the least-recently-inserted entry"), kept
    beside [call] only to be compared with it. The entries are in
    insertion order, latest first; a hit leaves the order alone. *)
Definition fifo_call (maxsize : nat) (k : K) (outcome : result V)
  (l : list (K * V)) : list (K * V) :=
  match cache_get k l with
  | Some _ => l
  | None =>
    match outcome with
    | Raise _ => l
    | Return v =>
      if (maxsize <=? List.length l)%nat then (k, v) :: removelast l
      else (k, v) :: l
    end
  end.

Definition fifo_run (maxsize : nat) (calls : list (K * result V))
  (l : list (K * V)) : list (K * V) :=
  fold_left (fun s c => fifo_call maxsize (fst c) (snd c) s) calls l.

End Wrapper.
End LruCache.

(* ================================================================== *)
(** ** The pandas operations [get_db_data] uses *)
(* ================================================================== *)

Module Pandas.

(** Nanoseconds in an hour and in a day. *)
Definition hour : Z := 3600000000000.
Definition day : Z := 24 * hour.

(** A row of the frame [pd.read_sql] returns, with the columns of the
    [SELECT]; the resampled frame has the same columns, [start_time]
    then being the hour label. *)
Record row : Type := mk_row {
  start_time : Z;
  energy_kwh : option Q;
  source : option string;
  cost : option Q;
  org_name : option string
}.

Definition DataFrame : Type := list row.

Definition floor_hour (t : Z) : Z := hour * (t / hour).
Definition floor_day (t : Z) : Z := day * (t / day).

Definition index_min (t0 : Z) (ts : list Z) : Z := fold_left Z.min ts t0.
Definition index_max (t0 : Z) (ts : list Z) : Z := fold_left Z.max ts t0.

(** Number of hours from the hour of [first] to the hour of [last]. *)
Definition span (first last : Z) : nat :=
  Z.to_nat ((floor_hour last - floor_hour first) / hour).

(** The labels of [resample('h')]: the start of every hour from the hour
    of the earliest timestamp to the hour of the latest one. *)
Definition hour_labels (first last : Z) : list Z :=
  map (fun i => floor_hour first + hour * Z.of_nat i)
      (seq 0 (S (span first last))).

(** The earliest and the latest timestamp of a frame with first row
    [r0] and further rows [rest]. *)
Definition earliest (r0 : row) (rest : DataFrame) : Z :=
  index_min (start_time r0) (map start_time rest).
Definition latest (r0 : row) (rest : DataFrame) : Z :=
  index_max (start_time r0) (map start_time rest).

(** The labels of [df.resample('h')]. *)
Definition resample_labels (df : DataFrame) : list Z :=
  match df with
  | [] => []
  | r0 :: rest => hour_labels (earliest r0 rest) (latest r0 rest)
  end.

(** The bin of label [L] is closed on the left: [L <= t < L + hour]. *)
Definition in_bucket (L : Z) (r : row) : bool :=
  (L <=? start_time r) && (start_time r <? L + hour).

(** The values of a column that are not missing. *)
Definition present {A : Type} (col : row -> option A) (df : DataFrame) : list A :=
  flat_map (fun r => match col r with Some v => [v] | None => [] end) df.

Definition Qsum (vs : list Q) : Q := fold_left Qplus vs 0%Q.

(** [mean()] of a bin: missing values are skipped, a bin without a value
    gives a missing value. The mean is the exact one; pandas returns its
    rounding to binary floating point, so the two agree where the values
    and their mean are binary floats, and only there is the number used
    below. *)
Definition mean (vs : list Q) : option Q :=
  match vs with
  | [] => None
  | _ => Some (Qred (Qsum vs / inject_Z (Z.of_nat (List.length vs))))
  end.

(** [df[col].resample('h').mean()], one value per label. *)
Definition resample_mean (col : row -> option Q) (df : DataFrame) (L : Z) : option Q :=
  mean (present col (filter (in_bucket L) df)).

Fixpoint last_error {A : Type} (l : list A) : option A :=
  match l with
  | [] => None
  | [a] => Some a
  | _ :: l' => last_error l'
  end.

(** [reindex(..., method='ffill')] at label [L]: the last row whose
    timestamp is at or before [L] (the rows are in timestamp order). *)
Definition pad (L : Z) (df : DataFrame) : option row :=
  last_error (filter (fun r => start_time r <=? L) df).

Fixpoint deltas (ts : list Z) : list Z :=
  match ts with
  | a :: (b :: _) as ts' => (b - a) :: deltas ts'
  | _ => []
  end.

(** [to_offset(ax.inferred_freq) == self.freq] for the hourly rule: at
    least three timestamps, each exactly one hour after the one before. *)
Definition inferred_hourly (ts : list Z) : bool :=
  (3 <=? List.length ts)%nat && forallb (Z.eqb hour) (deltas ts).

Fixpoint has_duplicates (ts : list Z) : bool :=
  match ts with
  | [] => false
  | t :: ts' => existsb (Z.eqb t) ts' || has_duplicates ts'
  end.

(** [df[categorical_cols].resample('h').ffill()]: the (source, org_name)
    pair per label. This is pandas' upsampling. The frame is reindexed
    at the labels with [method='ffill'], which takes for a label the last
    row at or before it and which pandas refuses on an index with
    repeated timestamps. pandas 2 ([relabel_hourly = true]) does not
    reindex when the frequency inferred from the index is the hourly one
    and there are as many rows as labels: it keeps the rows and relabels
    them. pandas 3 ([relabel_hourly = false]) shows such rows as
    reindexed, like any others. *)
Definition resample_ffill (relabel_hourly : bool) (df : DataFrame) (labels : list Z)
  : result (list (option string * option string)) :=
  if relabel_hourly
     && inferred_hourly (map start_time df)
     && (List.length df =? List.length labels)%nat
  then Return (map (fun r => (source r, org_name r)) df)
  else if has_duplicates (map start_time df)
  then Raise (Exception "cannot reindex on an axis with duplicate labels")
  else Return (map (fun L => match pad L df with
                             | Some r => (source r, org_name r)
                             | None => (None, None)
                             end) labels).

(** [pd.concat([numeric_df, categorical_df], axis=1).reset_index()]:
    both frames carry the hour labels as index. *)
Definition concat_reset_index (labels : list Z)
  (numeric_df : Z -> option Q * option Q)
  (categorical_df : list (option string * option string)) : DataFrame :=
  map (fun lc => mk_row (fst lc) (fst (numeric_df (fst lc))) (fst (snd lc))
                        (snd (numeric_df (fst lc))) (snd (snd lc)))
      (combine labels categorical_df).

Definition fill {A : Type} (prev cur : option A) : option A :=
  match cur with
  | Some _ => cur
  | None => prev
  end.

(** Forward fill of one column, [prev] being the last value seen. *)
Fixpoint ffill_col {A : Type} (prev : option A) (l : list (option A)) : list (option A) :=
  match l with
  | [] => []
  | c :: l' => fill prev c :: ffill_col (fill prev c) l'
  end.

Fixpoint ffill_from (pe : option Q) (ps : option string) (pc : option Q)
  (po : option string) (df : DataFrame) : DataFrame :=
  match df with
  | [] => []
  | r :: df' =>
    let e := fill pe (energy_kwh r) in
    let s := fill ps (source r) in
    let c := fill pc (cost r) in
    let o := fill po (org_name r) in
    mk_row (start_time r) e s c o :: ffill_from e s c o df'
  end.

(** [df.ffill()]: every column filled downwards. *)
Definition ffill (df : DataFrame) : DataFrame := ffill_from None None None None df.

Definition count (s : string) (l : list string) : nat :=
  List.length (filter (String.eqb s) l).

(** [x] comes before [y] in [mode()]: it occurs more often, or as often
    and sorts first. *)
Definition better (l : list string) (x y : string) : bool :=
  (count y l <? count x l)%nat
  || ((count x l =? count y l)%nat && String.ltb x y).

(** The values of a column, the missing ones dropped. *)
Definition dropna {A : Type} (col : list (option A)) : list A :=
  flat_map (fun c => match c with Some v => [v] | None => [] end) col.

(** [col.mode()[0]]: of the most frequent values that are not missing,
    the one that sorts first; [KeyError: 0] when there is none. *)
Definition mode0 (col : list (option string)) : result string :=
  let l := dropna col in
  match fold_left (fun best x =>
                     match best with
                     | None => Some x
                     | Some b => if better l x b then Some x else best
                     end) l None with
  | Some m => Return m
  | None => Raise (Exception "0")
  end.

(** [df['org_name'] = name] *)
Definition set_org_name (name : string) (df : DataFrame) : DataFrame :=
  map (fun r => mk_row (start_time r) (energy_kwh r) (source r) (cost r) (Some name)) df.

(** A row of the daily frame the cost chart plots. *)
Record daily_row : Type := mk_daily {
  d_start_time : Z;
  d_source : string;
  d_cost : Q
}.

Definition daily_compare (d : Z) (s : string) (x : daily_row) : comparison :=
  match Z.compare d (d_start_time x) with
  | Eq => String.compare s (d_source x)
  | c => c
  end.

Fixpoint daily_add (d : Z) (s : string) (c : Q) (acc : list daily_row) : list daily_row :=
  match acc with
  | [] => [mk_daily d s (Qred c)]
  | x :: acc' =>
    match daily_compare d s x with
    | Eq => mk_daily d s (Qred (d_cost x + c)) :: acc'
    | Lt => mk_daily d s (Qred c) :: acc
    | Gt => x :: daily_add d s c acc'
    end
  end.

(** [df.groupby([pd.Grouper(key='start_time', freq='D'), 'source'])
    ['cost'].sum().reset_index()]: a new frame with one row per day and
    source that occur, sorted; rows without a source are left out and a
    missing cost adds nothing. The sums are the exact ones, where pandas
    rounds to binary floating point; nothing below depends on their
    value. *)
Definition groupby_day_source_sum (df : DataFrame) : list daily_row :=
  fold_left (fun acc r =>
               match source r with
               | None => acc
               | Some s =>
                 daily_add (floor_day (start_time r)) s
                           (match cost r with Some c => c | None => 0%Q end) acc
               end) df [].

End Pandas.

Import Pandas.

(* ================================================================== *)
(** ** [main.py] *)
(* ================================================================== *)

Module App.

Definition DEFAULT_TIME_RANGE : Z := 7.

(** Lines 57-71: the resampling of a frame that has rows. *)
Definition resample (relabel_hourly : bool) (df : DataFrame) : result DataFrame :=
  match df with
  | [] => Return df
  | _ :: _ =>
    let labels := resample_labels df in
    let numeric_df :=
      fun L => (resample_mean energy_kwh df L, resample_mean cost df L) in
    categorical_df <- resample_ffill relabel_hourly df labels ;;
    let df1 := concat_reset_index labels numeric_df categorical_df in
    let df2 := ffill df1 in
    name <- mode0 (map org_name df2) ;;
    Return (set_org_name name df2)
  end.

(** The body of [get_db_data]. [read_sql] is what [pd.read_sql] does
    with the query for the organisation and the time range at the
    moment of the call: the rows in [start_time] order, or the
    exception of the driver. Whatever is raised inside the [try],
    by the query or by the resampling, leaves as [HTTPException(500)]. *)
Definition get_db_data_body (relabel_hourly : bool) (read_sql : result DataFrame)
  : result DataFrame :=
  try_except (df <- read_sql ;; resample relabel_hourly df)
             (fun e => HTTPException 500 ("Database error: " ++ str_exn e)).

(** The cache key is the tuple of the arguments of the call; every
    caller passes [org_id] alone. *)
Definition cache : Type := LruCache.state (list value) DataFrame.

Definition maxsize : nat := 32.

(** [@lru_cache(maxsize=32) def get_db_data(org_id, days=...)] called as
    [get_db_data(org_id)]. *)
Definition get_db_data (relabel_hourly : bool) (org_id : value)
  (read_sql : result DataFrame) (st : cache) : result DataFrame * cache :=
  LruCache.call args_eqb maxsize [org_id] (get_db_data_body relabel_hourly read_sql) st.

Inductive chart_kind : Type := Line | Bar | Scatter.

Inductive chart_data : Type :=
| Hourly (df : DataFrame)
| Daily (daily : list daily_row).

(** What a handler hands to plotly express. *)
Record figure : Type := mk_figure {
  kind : chart_kind;
  data : chart_data;
  x : string;
  y : string;
  color : string;
  size : option string;
  title : string
}.

(** [f"Energy Consumption - {df['org_name'][0] if not df.empty else {org_id}}"]:
    the field holds a conditional expression whose [else] branch is the
    set display [{org_id}]. *)
Definition chart_title (df : DataFrame) (org_id : value) : string :=
  "Energy Consumption - "
  ++ match df with
     | r :: _ => match org_name r with Some n => n | None => "nan" end
     | [] => str_set1 org_id
     end.

Inductive response : Type :=
| HTTP (status : Z) (body : string).

(** The requests that reach a handler, by route; the summary route
    carries the identifier as the [int] FastAPI made of the path segment.
    A summary request whose path segment is no integer is answered by
    FastAPI itself (status 422) and never reaches [energy_summary]; such
    requests are not among these. *)
Inductive request : Type :=
| GetEnergy (org_id : string)
| GetCost (org_id : string)
| GetSummary (org_id : Z).

(** The cache key the handler of a request calls [get_db_data] with. *)
Definition request_key (r : request) : list value :=
  match r with
  | GetEnergy s => [PyStr s]
  | GetCost s => [PyStr s]
  | GetSummary n => [PyInt n]
  end.

Section Handlers.

(** The pandas in use, see [resample_ffill]. *)
Variable relabel_hourly : bool.

(** The rendering of plotly ([px.line] / [px.bar] / [px.scatter], the
    layout updates and [fig.to_html]): a fragment, or an exception. *)
Variable to_html : figure -> result string.

(** The body of a handler after [get_db_data] returned the frame [df]:
    the figure it builds, and the contents of the frame object when
    the body is done. The bodies only read the frame ([df.head()] for
    the printed line, the title, the plotly call; the cost handler
    aggregates into a frame of its own). *)
Definition energy_figure (org_id : value) (df : DataFrame) : figure * DataFrame :=
  (mk_figure Line (Hourly df) "start_time" "energy_kwh" "source" None
             (chart_title df org_id), df).

Definition cost_figure (org_id : value) (df : DataFrame) : figure * DataFrame :=
  let daily := groupby_day_source_sum df in
  (mk_figure Bar (Daily daily) "start_time" "cost" "source" None
             (chart_title df org_id), df).

Definition summary_figure (org_id : value) (df : DataFrame) : figure * DataFrame :=
  (mk_figure Scatter (Hourly df) "start_time" "energy_kwh" "source" (Some "cost")
             (chart_title df org_id), df).

(** The common shape of the three handlers:
    [try: df = get_db_data(org_id); ...; return fig.to_html(...)
     except Exception as e: raise HTTPException(status_code=400, detail=str(e))]. *)
Definition handler (build : value -> DataFrame -> figure * DataFrame)
  (org_id : value) (read_sql : result DataFrame) (st : cache) : response * cache :=
  match get_db_data relabel_hourly org_id read_sql st with
  | (Raise e, st') => (HTTP 400 (str_exn e), st')
  | (Return df, st') =>
    let fd := build org_id df in
    (match to_html (fst fd) with
     | Return html => HTTP 200 html
     | Raise e => HTTP 400 (str_exn e)
     end,
     LruCache.alias_update args_eqb [org_id] (snd fd) st')
  end.

(** [GET /viz/energy/{org_id}]: [org_id] is the path segment. *)
Definition energy_consumption (org_id : string) :=
  handler energy_figure (PyStr org_id).

(** [GET /viz/cost/{org_id}] *)
Definition energy_cost (org_id : string) :=
  handler cost_figure (PyStr org_id).

(** [GET /viz/summary/{org_id}] with [org_id: int]. *)
Definition energy_summary (org_id : Z) :=
  handler summary_figure (PyInt org_id).

Definition route (r : request) : result DataFrame -> cache -> response * cache :=
  match r with
  | GetEnergy s => energy_consumption s
  | GetCost s => energy_cost s
  | GetSummary n => energy_summary n
  end.

End Handlers.

End App.

Import App.

(** A sequence of [get_db_data] calls, each with what its query would
    yield, in the order they are made. *)
Definition requests (relabel_hourly : bool)
  (calls : list (value * result DataFrame)) (st : cache) : cache :=
  fold_left (fun s c => snd (get_db_data relabel_hourly (fst c) (snd c) s)) calls st.


(** Organisations 1 to 32 are fetched, organisation 1 is fetched again,
    then organisation 33; no organisation has rows. *)
Definition thirty_four_calls : list (value * result DataFrame) :=
  map (fun n => (PyInt n, Return []))
      (map Z.of_nat (seq 1 32) ++ [1; 33]).

(** Clock time [h:m] of day 0, as a timestamp. *)
Definition clock (h m : Z) : Z := (h * 3600 + m * 60) * 1000000000.

Definition reading (t : Z) (e : Q) (s : string) (c : Q) (o : string) : row :=
  mk_row t (Some e) (Some s) (Some c) (Some o).

(** Four readings of one morning and the frame [resample] makes of them. *)
Definition morning : DataFrame :=
  [ reading (clock 9 0) 1 "solar" (1 # 2) "Acme";
    reading (clock 10 5) 2 "grid" (3 # 2) "Acme";
    reading (clock 10 40) 4 "grid" (5 # 2) "Acme";
    reading (clock 12 20) 3 "wind" 1 "Acme" ].

Definition morning_resampled : DataFrame :=
  [ reading (clock 9 0) 1 "solar" (1 # 2) "Acme";
    reading (clock 10 0) 3 "solar" 2 "Acme";
    reading (clock 11 0) 3 "grid" 2 "Acme";
    reading (clock 12 0) 3 "grid" 1 "Acme" ].



(** A single reading, at 10:05. *)
Definition single_reading : DataFrame :=
  [ reading (clock 10 5) 2 "solar" 1 "Acme" ].

(** The readings of 10:05 and 10:40, of 2.0 and 4.0 kWh. *)
Definition one_hour : DataFrame :=
  [ reading (clock 10 5) 2 "solar" 1 "Acme";
    reading (clock 10 40) 4 "solar" 1 "Acme" ].

(** One reading labelled "Alpha" at 9:00, then three labelled "Beta" from
    11:00 on, and the frame [resample] makes of them. *)
Definition relabelled : DataFrame :=
  [ reading (clock 9 0) 1 "solar" 1 "Alpha";
    reading (clock 11 0) 1 "solar" 1 "Beta";
    reading (clock 12 0) 1 "solar" 1 "Beta";
    reading (clock 13 30) 1 "solar" 1 "Beta" ].

Definition relabelled_resampled : DataFrame :=
  [ reading (clock 9 0) 1 "solar" 1 "Beta";
    reading (clock 10 0) 1 "solar" 1 "Beta";
    reading (clock 11 0) 1 "solar" 1 "Beta";
    reading (clock 12 0) 1 "solar" 1 "Beta";
    reading (clock 13 0) 1 "solar" 1 "Beta" ].

(** Two readings, at 10:05 and at 11:10, and the frame [resample] makes
    of them. *)
Definition two_readings : DataFrame :=
  [ reading (clock 10 5) 2 "solar" 1 "Acme";
    reading (clock 11 10) 4 "solar" 3 "Acme" ].

Definition two_readings_resampled : DataFrame :=
  [ mk_row (clock 10 0) (Some 2%Q) None (Some 1%Q) (Some "Acme");
    reading (clock 11 0) 4 "solar" 3 "Acme" ].

(** Two readings of one timestamp, one per source. *)
Definition same_instant : DataFrame :=
  [ reading (clock 10 0) 2 "grid" 1 "Acme";
    reading (clock 10 0) 1 "solar" 0 "Acme" ].

(* ================================================================== *)
(** ** Facts about the cache *)
(* ================================================================== *)

Import LruCache.

Section LruFacts.

Variables K V : Type.
Variable key_eqb : K -> K -> bool.
Hypothesis key_eqb_spec : forall a b, key_eqb a b = true <-> a = b.

Lemma key_eqb_refl (a : K) : key_eqb a a = true.
Proof. now apply key_eqb_spec. Qed.

Lemma key_eqb_false (a b : K) : key_eqb a b = false <-> a <> b.
Proof.
  split.
  - intros E H. apply key_eqb_spec in H. congruence.
  - intros H. destruct (key_eqb a b) eqn:E; [|reflexivity].
    apply key_eqb_spec in E. contradiction.
Qed.

Lemma keys_cache_del (k : K) (l : list (K * V)) :
  map fst (cache_del key_eqb k l) = filter (differs key_eqb k) (map fst l).
Proof.
  unfold cache_del, differs.
  induction l as [|[k' v] l IH]; simpl; [reflexivity|].
  destruct (key_eqb k k'); simpl; now rewrite IH.
Qed.

Lemma cache_get_none_filter (k : K) (l : list (K * V)) :
  cache_get key_eqb k l = None -> filter (differs key_eqb k) (map fst l) = map fst l.
Proof.
  unfold differs.
  induction l as [|[k' v] l IH]; simpl; [reflexivity|].
  destruct (key_eqb k k'); [discriminate|].
  intros H. simpl. now rewrite IH.
Qed.

Lemma cache_get_some_shrinks (k : K) (v : V) (l : list (K * V)) :
  cache_get key_eqb k l = Some v ->
  (List.length (filter (differs key_eqb k) (map fst l)) < List.length l)%nat.
Proof.
  induction l as [|[k' v'] l IH]; simpl; [discriminate|].
  unfold differs at 1. destruct (key_eqb k k'); simpl.
  - intros _. pose proof (filter_length_le (differs key_eqb k) (map fst l)) as H.
    rewrite length_map in H. lia.
  - intros H. apply IH in H. lia.
Qed.

Lemma In_firstn (A : Type) (a : A) (n : nat) (l : list A) :
  In a (firstn n l) -> In a l.
Proof.
  intros H. rewrite <- (firstn_skipn n l). apply in_or_app. now left.
Qed.

(** The keys after a call whose computation (if any) succeeds: the key
    of the call in front, the others behind it in their order, cut at
    the capacity. *)
Lemma keys_after_call (m : nat) (k : K) (v : V) (st : state K V) :
  (List.length (entries st) <= m)%nat ->
  keys (snd (call key_eqb m k (Return v) st))
  = firstn m (k :: filter (differs key_eqb k) (keys st)).
Proof.
  intros Hlen. unfold call, keys.
  destruct m as [|m].
  - simpl. destruct (entries st); [reflexivity|simpl in Hlen; lia].
  - destruct (cache_get key_eqb k (entries st)) as [v0|] eqn:G.
    + cbn [snd entries map fst]. rewrite keys_cache_del.
      cbn [firstn]. f_equal.
      rewrite firstn_all2; [reflexivity|].
      apply cache_get_some_shrinks in G. lia.
    + rewrite (cache_get_none_filter _ _ G).
      destruct (Nat.leb_spec (S m) (List.length (entries st))) as [F|F];
        cbn [snd entries map fst firstn]; f_equal.
      * rewrite removelast_firstn_len, firstn_map.
        replace (List.length (entries st)) with (S m) by lia.
        reflexivity.
      * rewrite firstn_all2; [reflexivity|]. rewrite length_map. lia.
Qed.

Lemma recency_NoDup (l : list K) : NoDup (recency key_eqb l).
Proof.
  induction l as [|k l IH]; simpl; constructor.
  - intros H. apply filter_In in H. destruct H as [_ H].
    unfold differs in H. rewrite key_eqb_refl in H. discriminate.
  - now apply NoDup_filter.
Qed.

Lemma filter_other_notin (k : K) (l : list K) :
  ~ In k l -> filter (differs key_eqb k) l = l.
Proof.
  induction l as [|a l IH]; simpl; [reflexivity|].
  intros H. unfold differs at 1. destruct (key_eqb k a) eqn:E.
  - apply key_eqb_spec in E. subst. tauto.
  - simpl. rewrite IH; tauto.
Qed.

(** Cutting a duplicate-free list before dropping one key changes
    nothing within the cut shortened by one. *)
Lemma firstn_filter_firstn (k : K) (l : list K) :
  NoDup l -> forall n j : nat, (n < j)%nat ->
  firstn n (filter (differs key_eqb k) (firstn j l)) = firstn n (filter (differs key_eqb k) l).
Proof.
  induction 1 as [|a l Ha Hl IH]; intros n j Hnj.
  - now rewrite firstn_nil.
  - destruct j as [|j]; [lia|]. cbn [firstn filter].
    destruct (differs key_eqb k a) eqn:E.
    + destruct n as [|n]; [reflexivity|]. cbn [firstn]. f_equal. apply IH. lia.
    + unfold differs in E. apply negb_false_iff, key_eqb_spec in E. subst a.
      rewrite (filter_other_notin k l Ha).
      rewrite filter_other_notin.
      * rewrite firstn_firstn. f_equal. lia.
      * intros H. apply Ha. apply (In_firstn _ _ _ H).
Qed.

Lemma run_snoc (m : nat) (calls : list (K * result V)) (c : K * result V)
  (st : state K V) :
  run key_eqb m (calls ++ [c]) st
  = snd (call key_eqb m (fst c) (snd c) (run key_eqb m calls st)).
Proof. unfold run. now rewrite fold_left_app. Qed.

(** The cache holds the [m] most recently used distinct keys, the most
    recent first. *)
Lemma keys_run_recency (m : nat) (calls : list (K * V)) :
  keys
    (run key_eqb m (map (fun c => (fst c, Return (snd c))) calls)
                  (empty K V))
  = firstn m (recency key_eqb (rev (map fst calls))).
Proof.
  induction calls as [|[k v] calls IH] using rev_ind.
  - simpl. now rewrite firstn_nil.
  - rewrite map_app. cbn [map]. rewrite run_snoc. cbn [fst snd].
    rewrite keys_after_call.
    + rewrite IH, map_app, rev_app_distr. cbn [map rev app fst recency].
      destruct m as [|m]; [reflexivity|].
      rewrite !(firstn_cons m k). f_equal.
      apply firstn_filter_firstn; [apply recency_NoDup|lia].
    + rewrite <- (length_map fst).
      match goal with |- context [map fst (entries ?s)] =>
        change (map fst (entries s)) with (keys s) end.
      rewrite IH. apply firstn_le_length.
Qed.

Lemma cache_get_del_other (k k2 : K) (l : list (K * V)) :
  k <> k2 -> cache_get key_eqb k (cache_del key_eqb k2 l) = cache_get key_eqb k l.
Proof.
  intros Hne. unfold cache_del.
  induction l as [|[k' v] l IH]; [reflexivity|]. cbn [filter fst].
  destruct (differs key_eqb k2 k') eqn:E; cbn [cache_get].
  - now rewrite IH.
  - unfold differs in E. apply negb_false_iff, key_eqb_spec in E. subst k'.
    apply key_eqb_false in Hne. now rewrite Hne.
Qed.

Lemma cache_get_del_same (k : K) (l : list (K * V)) :
  cache_get key_eqb k (cache_del key_eqb k l) = None.
Proof.
  unfold cache_del.
  induction l as [|[k' v] l IH]; [reflexivity|]. cbn [filter fst].
  destruct (differs key_eqb k k') eqn:E; [|exact IH].
  cbn [cache_get]. unfold differs in E. apply negb_true_iff in E.
  now rewrite E.
Qed.

(** Dropping the entry at the far end loses at most that entry. *)
Lemma cache_get_removelast (k : K) (l : list (K * V)) :
  cache_get key_eqb k (removelast l) = cache_get key_eqb k l
  \/ cache_get key_eqb k (removelast l) = None.
Proof.
  induction l as [|[k' v] l IH]; [now left|].
  destruct l as [|e l]; [now right|].
  change (removelast ((k', v) :: e :: l)) with ((k', v) :: removelast (e :: l)).
  cbn [cache_get]. destruct (key_eqb k k'); [now left|exact IH].
Qed.

Lemma cache_get_removelast_none (k : K) (l : list (K * V)) :
  cache_get key_eqb k l = None -> cache_get key_eqb k (removelast l) = None.
Proof.
  intros H. destruct (cache_get_removelast k l) as [E|E]; congruence.
Qed.

Lemma cache_set_absent (k : K) (v : V) (l : list (K * V)) :
  cache_get key_eqb k l = None -> cache_set key_eqb k v l = l.
Proof.
  unfold cache_set.
  induction l as [|[k' v'] l IH]; [reflexivity|]. cbn [cache_get map fst].
  destruct (key_eqb k k'); [discriminate|].
  intros H. now rewrite IH.
Qed.

(** A hit returns the stored result whatever the user function would
    do, and counts as a hit. *)
Lemma call_hit (m : nat) (k : K) (o : result V) (t : V) (st : state K V) :
  cache_get key_eqb k (entries st) = Some t ->
  call key_eqb (S m) k o st
  = (Return t,
     mk_state ((k, t) :: cache_del key_eqb k (entries st)) (S (hits st)) (misses st)).
Proof. intros H. unfold call. now rewrite H. Qed.



(** A key that is not stored stays so while other keys are called. *)
Lemma call_other (m : nat) (k k2 : K) (o : result V) (st : state K V) :
  k <> k2 ->
  cache_get key_eqb k (entries st) = None ->
  cache_get key_eqb k (entries (snd (call key_eqb m k2 o st))) = None.
Proof.
  intros Hne H. pose proof (proj2 (key_eqb_false k k2) Hne) as E.
  unfold call. destruct m as [|m]; [exact H|].
  destruct (cache_get key_eqb k2 (entries st)) as [v|] eqn:G.
  - cbn [snd entries cache_get]. rewrite E. now rewrite cache_get_del_other.
  - destruct o as [v|e]; [|exact H]. cbn [snd entries].
    destruct (S m <=? List.length (entries st))%nat;
      cbn [cache_get]; rewrite E; [|exact H].
    now apply cache_get_removelast_none.
Qed.

Lemma call_miss_counts (m : nat) (k : K) (o : result V) (st : state K V) :
  cache_get key_eqb k (entries st) = None ->
  misses (snd (call key_eqb m k o st)) = S (misses st).
Proof.
  intros H. unfold call. destruct m as [|m]; [reflexivity|].
  rewrite H. now destruct o.
Qed.


(** After a call returned a frame, writing that frame back under the
    key changes nothing. *)
Lemma alias_update_same (m : nat) (k : K) (o : result V) (t : V) (st : state K V) :
  fst (call key_eqb (S m) k o st) = Return t ->
  alias_update key_eqb k t (snd (call key_eqb (S m) k o st))
  = snd (call key_eqb (S m) k o st).
Proof.
  unfold call, alias_update.
  destruct (cache_get key_eqb k (entries st)) as [v|] eqn:G.
  - cbn [fst snd entries hits misses]. intros [= ->]. f_equal.
    unfold cache_set. cbn [map fst]. rewrite key_eqb_refl. f_equal.
    apply cache_set_absent, cache_get_del_same.
  - destruct o as [v|e]; cbn [fst]; [|discriminate]. intros [= ->].
    cbn [snd entries hits misses]. f_equal.
    destruct (S m <=? List.length (entries st))%nat;
      unfold cache_set; cbn [map fst]; rewrite key_eqb_refl; f_equal;
      apply cache_set_absent; [now apply cache_get_removelast_none|exact G].
Qed.

(** Two keys that were not stored, called one after the other with a
    capacity of two or more: each holds what its computation returned. *)
Lemma two_keys_two_entries (m : nat) (k1 k2 : K) (o1 o2 : result V) (st : state K V) :
  k1 <> k2 ->
  cache_get key_eqb k1 (entries st) = None ->
  cache_get key_eqb k2 (entries st) = None ->
  let st2 := snd (call key_eqb (S (S m)) k2 o2
                    (snd (call key_eqb (S (S m)) k1 o1 st))) in
  cache_get key_eqb k1 (entries st2) = returned o1
  /\ cache_get key_eqb k2 (entries st2) = returned o2.
Proof.
  intros Hne H1 H2.
  pose proof (proj2 (key_eqb_false k1 k2) Hne) as E12.
  assert (E21 : key_eqb k2 k1 = false) by (apply key_eqb_false; congruence).
  cbv zeta. unfold call at 2 4. rewrite H1.
  destruct o1 as [t1|e1]; cbn [snd returned].
  - set (l1 := if (S (S m) <=? List.length (entries st))%nat
               then (k1, t1) :: removelast (entries st)
               else (k1, t1) :: entries st).
    assert (G2 : cache_get key_eqb k2 l1 = None).
    { subst l1. destruct (S (S m) <=? List.length (entries st))%nat;
        cbn [cache_get]; rewrite E21; [|exact H2].
      now apply cache_get_removelast_none. }
    assert (Hl1 : exists l, l1 = (k1, t1) :: l).
    { subst l1. destruct (S (S m) <=? List.length (entries st))%nat; eauto. }
    destruct Hl1 as [l Hl]. unfold call. cbn [entries]. rewrite G2.
    destruct o2 as [t2|e2]; cbn [snd entries returned].
    + destruct (Nat.leb_spec (S (S m)) (List.length l1)) as [F|F];
        cbn [cache_get]; rewrite E12, key_eqb_refl; split; try reflexivity.
      * rewrite Hl in *. destruct l as [|e l]; [simpl in F; lia|].
        change (removelast ((k1, t1) :: e :: l))
          with ((k1, t1) :: removelast (e :: l)).
        cbn [cache_get]. now rewrite key_eqb_refl.
      * rewrite Hl. cbn [cache_get]. now rewrite key_eqb_refl.
    + split; [|exact G2]. rewrite Hl. cbn [cache_get]. now rewrite key_eqb_refl.
  - unfold call. cbn [entries]. rewrite H2.
    destruct o2 as [t2|e2]; cbn [snd entries returned].
    + destruct (S (S m) <=? List.length (entries st))%nat;
        cbn [cache_get]; rewrite E12, key_eqb_refl; split; try reflexivity;
        [now apply cache_get_removelast_none|exact H1].
    + now split.
Qed.

End LruFacts.

(* ================================================================== *)
(** ** Hours and hour labels *)
(* ================================================================== *)

Unset Implicit Arguments.
Local Open Scope list_scope.

(** What follows holds whichever pandas is in use. *)
Section AnyPandas.

Variable relabel : bool.

Lemma hour_pos : 0 < hour.
Proof. reflexivity. Qed.

Lemma floor_hour_le (t : Z) : floor_hour t <= t.
Proof. unfold floor_hour. apply Z.mul_div_le, hour_pos. Qed.

Lemma floor_hour_lt (t : Z) : t < floor_hour t + hour.
Proof.
  unfold floor_hour. pose proof hour_pos as Hp.
  pose proof (Z.mod_pos_bound t hour Hp) as Hm.
  pose proof (Z.div_mod t hour) as Hd. lia.
Qed.

Lemma floor_hour_mult (k : Z) : floor_hour (hour * k) = hour * k.
Proof.
  unfold floor_hour. pose proof hour_pos as Hp.
  rewrite (Z.mul_comm hour k), Z.div_mul by lia. lia.
Qed.

Lemma floor_hour_idem (t : Z) : floor_hour (floor_hour t) = floor_hour t.
Proof. unfold floor_hour at 2 3. apply floor_hour_mult. Qed.

Lemma floor_hour_add (t i : Z) : floor_hour (t + hour * i) = floor_hour t + hour * i.
Proof.
  unfold floor_hour. pose proof hour_pos as Hp.
  rewrite (Z.mul_comm hour i), Z.div_add by lia. lia.
Qed.

Lemma floor_hour_mono (a b : Z) : a <= b -> floor_hour a <= floor_hour b.
Proof.
  intros H. unfold floor_hour. pose proof hour_pos as Hp.
  apply Z.mul_le_mono_nonneg_l; [lia|]. apply Z.div_le_mono; lia.
Qed.

(** The hour of [t] is the one label [L] with [L <= t < L + hour]. *)
Lemma floor_hour_unique (t L : Z) :
  floor_hour L = L -> L <= t < L + hour -> floor_hour t = L.
Proof.
  intros HL [H1 H2]. pose proof hour_pos as Hp.
  pose proof (floor_hour_mono _ _ H1) as M. rewrite HL in M.
  assert (Hlt : floor_hour t < L + hour) by (pose proof (floor_hour_le t); lia).
  unfold floor_hour in *.
  assert (t / hour < L / hour + 1) by nia.
  assert (L / hour <= t / hour) by nia.
  assert (t / hour = L / hour) by lia. congruence.
Qed.

Lemma span_spec (lo hi : Z) :
  lo <= hi -> floor_hour hi = floor_hour lo + hour * Z.of_nat (span lo hi).
Proof.
  intros H. pose proof hour_pos as Hp. unfold span.
  pose proof (floor_hour_mono _ _ H) as M.
  assert (E : floor_hour hi - floor_hour lo = (hi / hour - lo / hour) * hour)
    by (unfold floor_hour; lia).
  rewrite E, Z.div_mul by lia.
  rewrite Z2Nat.id; [unfold floor_hour in *; lia|].
  unfold floor_hour in M. nia.
Qed.

Lemma hour_labels_eq (lo hi : Z) :
  hour_labels lo hi
  = map (fun i => floor_hour lo + hour * Z.of_nat i) (seq 0 (S (span lo hi))).
Proof. reflexivity. Qed.

Lemma hour_labels_length (lo hi : Z) :
  List.length (hour_labels lo hi) = S (span lo hi).
Proof. rewrite hour_labels_eq, length_map, length_seq. reflexivity. Qed.

Lemma hour_labels_cons (lo hi : Z) :
  hour_labels lo hi
  = floor_hour lo
    :: map (fun i => floor_hour lo + hour * Z.of_nat i) (seq 1 (span lo hi)).
Proof.
  rewrite hour_labels_eq. cbn [seq map]. f_equal. lia.
Qed.

Lemma hour_labels_nth (lo hi : Z) (i : nat) (L : Z) :
  nth_error (hour_labels lo hi) i = Some L ->
  L = floor_hour lo + hour * Z.of_nat i /\ (i <= span lo hi)%nat.
Proof.
  intros H. rewrite hour_labels_eq in H.
  assert (Hi : (i < S (span lo hi))%nat).
  { assert (N : nth_error (map (fun i => floor_hour lo + hour * Z.of_nat i)
                               (seq 0 (S (span lo hi)))) i <> None) by congruence.
    apply nth_error_Some in N. now rewrite length_map, length_seq in N. }
  rewrite nth_error_map, nth_error_seq in H.
  destruct (Nat.ltb_spec i (S (span lo hi))); [|lia].
  cbn in H. injection H as <-. split; [reflexivity|lia].
Qed.

Lemma in_hour_labels (lo hi H : Z) :
  lo <= hi ->
  (In H (hour_labels lo hi)
   <-> floor_hour H = H /\ floor_hour lo <= H <= floor_hour hi).
Proof.
  intros Hle. pose proof hour_pos as Hp. pose proof (span_spec lo hi Hle) as Hs.
  rewrite hour_labels_eq, in_map_iff. split.
  - intros [i [<- Hi]]. apply in_seq in Hi. split.
    + unfold floor_hour at 2 3.
      rewrite <- Z.mul_add_distr_l. apply floor_hour_mult.
    + nia.
  - intros [Hf [H1 H2]].
    exists (Z.to_nat (H / hour - lo / hour)).
    assert (0 <= H / hour - lo / hour) by (unfold floor_hour in *; nia).
    split.
    + rewrite Z2Nat.id by assumption. unfold floor_hour in *. lia.
    + apply in_seq. split; [lia|].
      assert (H / hour - lo / hour <= Z.of_nat (span lo hi))
        by (unfold floor_hour in *; nia).
      lia.
Qed.

Lemma hour_labels_NoDup (lo hi : Z) : NoDup (hour_labels lo hi).
Proof.
  rewrite hour_labels_eq. pose proof hour_pos as Hp.
  apply Injective_map_NoDup_in; [|apply seq_NoDup].
  intros i j _ _ E. nia.
Qed.

Lemma index_min_le (ts : list Z) :
  forall t0, index_min t0 ts <= t0 /\ (forall t, In t ts -> index_min t0 ts <= t).
Proof.
  unfold index_min. induction ts as [|a ts IH]; intros t0; cbn [fold_left].
  - split; [lia|intros t []].
  - destruct (IH (Z.min t0 a)) as [H1 H2]. split; [lia|].
    intros t [<-|Ht]; [lia|auto].
Qed.

Lemma index_min_in (ts : list Z) :
  forall t0, In (index_min t0 ts) (t0 :: ts).
Proof.
  unfold index_min. induction ts as [|a ts IH]; intros t0; cbn [fold_left].
  - now left.
  - destruct (IH (Z.min t0 a)) as [E|E].
    + rewrite <- E. destruct (Z.min_spec t0 a) as [[_ ->]|[_ ->]];
        [now left|right; now left].
    + right. now right.
Qed.

Lemma index_max_ge (ts : list Z) :
  forall t0, t0 <= index_max t0 ts /\ (forall t, In t ts -> t <= index_max t0 ts).
Proof.
  unfold index_max. induction ts as [|a ts IH]; intros t0; cbn [fold_left].
  - split; [lia|intros t []].
  - destruct (IH (Z.max t0 a)) as [H1 H2]. split; [lia|].
    intros t [<-|Ht]; [lia|auto].
Qed.

(* ================================================================== *)
(** ** The cache of [get_db_data] *)
(* ================================================================== *)

Lemma value_eqb_spec (a b : value) : value_eqb a b = true <-> a = b.
Proof.
  destruct a as [s|m], b as [t|n]; simpl; split; intros H;
    try discriminate; try congruence.
  - apply String.eqb_eq in H. congruence.
  - injection H as ->. apply String.eqb_refl.
  - apply Z.eqb_eq in H. congruence.
  - injection H as ->. apply Z.eqb_refl.
Qed.

Lemma args_eqb_spec (a b : list value) : args_eqb a b = true <-> a = b.
Proof.
  revert b. induction a as [|x a IH]; intros [|y b]; simpl; split; intros H;
    try discriminate; try reflexivity.
  - apply andb_true_iff in H. destruct H as [H1 H2].
    apply value_eqb_spec in H1. apply IH in H2. congruence.
  - injection H as -> ->. apply andb_true_iff. split.
    + now apply value_eqb_spec.
    + now apply IH.
Qed.

Lemma requests_cons (c : value * result DataFrame) (calls : list (value * result DataFrame))
  (st : cache) :
  requests relabel (c :: calls) st = requests relabel calls (snd (get_db_data relabel (fst c) (snd c) st)).
Proof. reflexivity. Qed.


Lemma handler_state (to_html : figure -> result string)
  (build : value -> DataFrame -> figure * DataFrame) :
  (forall id df, snd (build id df) = df) ->
  forall org_id q st,
  snd (handler relabel to_html build org_id q st) = snd (get_db_data relabel org_id q st).
Proof.
  intros Hbuild org_id q st. unfold handler.
  destruct (get_db_data relabel org_id q st) as [[df|e] st'] eqn:G; [|reflexivity].
  cbn [snd]. rewrite Hbuild.
  unfold get_db_data in G.
  pose proof (alias_update_same args_eqb args_eqb_spec 31 [org_id]
                (get_db_data_body relabel q) st (t:=df)) as H.
  change (S 31) with maxsize in H. rewrite G in H. now apply H.
Qed.

Lemma route_state (to_html : figure -> result string) (r : request) q st :
  exists org_id, request_key r = [org_id]
    /\ snd (route relabel to_html r q st) = snd (get_db_data relabel org_id q st).
Proof.
  destruct r as [s|s|n]; eexists; (split; [reflexivity|]);
    cbn [route]; apply handler_state; reflexivity.
Qed.

(** A request that finds nothing stored and whose pipeline raises is
    answered with status 400 and the text of the exception, and stores
    nothing. *)
Lemma route_raise (to_html : figure -> result string) (r : request)
  (q : result DataFrame) (st : cache) (e : exn) :
  cache_get args_eqb (request_key r) (entries st) = None ->
  get_db_data_body relabel q = Raise e ->
  fst (route relabel to_html r q st) = HTTP 400 (str_exn e)
  /\ entries (snd (route relabel to_html r q st)) = entries st.
Proof.
  intros H Hb.
  destruct r as [s|s|n]; cbn [request_key] in H;
    cbn [route]; unfold energy_consumption, energy_cost, energy_summary, handler,
      get_db_data, call, maxsize; rewrite H, Hb; split; reflexivity.
Qed.

(** C2 (amended). For every sequence of calls whose computations return,
    the cache of capacity [m] holds the [m] most recently used distinct
    keys, most recent first: the entry that leaves is the least recently
    used one, a hit counting as a use. With capacity 2 and distinct keys
    A, B, C called in this order, A is evicted and B and C are returned
    from the cache without a new computation. *)
Theorem lru_evicts_least_recently_used :
  forall (m : nat) (calls : list (list value * DataFrame))
         (A B C : list value) (a b c : DataFrame),
  A <> B -> A <> C -> B <> C ->
  keys (run args_eqb m (map (fun c => (fst c, Return (snd c))) calls)
            (empty (list value) DataFrame))
  = firstn m (recency args_eqb (rev (map fst calls)))
  /\ let st := run args_eqb 2 [(A, Return a); (B, Return b); (C, Return c)]
                  (empty (list value) DataFrame) in
     cache_get args_eqb A (entries st) = None
     /\ (forall o, fst (call args_eqb 2 B o st) = Return b
                   /\ misses (snd (call args_eqb 2 B o st)) = misses st)
     /\ (forall o, fst (call args_eqb 2 C o st) = Return c
                   /\ misses (snd (call args_eqb 2 C o st)) = misses st).
Proof.
  intros m calls A B C a b c HAB HAC HBC. split.
  - apply (keys_run_recency args_eqb args_eqb_spec).
  - pose proof (proj2 (key_eqb_false args_eqb args_eqb_spec _ _) HAB) as EAB.
    pose proof (proj2 (key_eqb_false args_eqb args_eqb_spec _ _) HAC) as EAC.
    pose proof (proj2 (key_eqb_false args_eqb args_eqb_spec _ _) HBC) as EBC.
    assert (EBA : args_eqb B A = false)
      by (apply (key_eqb_false args_eqb args_eqb_spec); congruence).
    assert (ECA : args_eqb C A = false)
      by (apply (key_eqb_false args_eqb args_eqb_spec); congruence).
    assert (ECB : args_eqb C B = false)
      by (apply (key_eqb_false args_eqb args_eqb_spec); congruence).
    assert (E : run args_eqb 2 [(A, Return a); (B, Return b); (C, Return c)]
                    (empty (list value) DataFrame)
                = mk_state [(C, c); (B, b)] 0 3).
    { unfold run, call, empty. simpl. rewrite EBA. simpl.
      rewrite ECB, ECA. reflexivity. }
    cbv zeta. rewrite E. cbn [entries cache_get]. rewrite EAC, EAB.
    split; [reflexivity|].
    split; intros o; unfold call; cbn [entries cache_get];
      rewrite ?EBC, ?(key_eqb_refl args_eqb args_eqb_spec); split; reflexivity.
Qed.


(** C8. The energy and cost handlers look the frame up under the [str]
    identifier, the summary handler under the [int] one, and the two keys
    are never equal. So with neither stored: after an energy or cost
    request the [int] key is still not stored and a summary request
    computes again, and the other way round; and after an energy and a
    summary request the organisation has two entries, one per key, each
    holding what its own computation returned. *)
Theorem str_and_int_keys_never_share_an_entry :
  forall (to_html : figure -> result string) (s : string) (n : Z)
         (q1 q2 : result DataFrame) (st : cache),
  cache_get args_eqb [PyStr s] (entries st) = None ->
  cache_get args_eqb [PyInt n] (entries st) = None ->
  args_eqb [PyStr s] [PyInt n] = false
  /\ (forall r, r = GetEnergy s \/ r = GetCost s ->
      let st1 := snd (route relabel to_html r q1 st) in
      cache_get args_eqb [PyInt n] (entries st1) = None
      /\ misses (snd (energy_summary relabel to_html n q2 st1)) = S (misses st1))
  /\ (forall r, r = GetEnergy s \/ r = GetCost s ->
      let st1 := snd (energy_summary relabel to_html n q1 st) in
      cache_get args_eqb [PyStr s] (entries st1) = None
      /\ misses (snd (route relabel to_html r q2 st1)) = S (misses st1))
  /\ (let st2 := snd (energy_summary relabel to_html n q2
                       (snd (energy_consumption relabel to_html s q1 st))) in
      cache_get args_eqb [PyStr s] (entries st2) = returned (get_db_data_body relabel q1)
      /\ cache_get args_eqb [PyInt n] (entries st2) = returned (get_db_data_body relabel q2)).
Proof.
  intros to_html s n q1 q2 st Hs Hn.
  assert (Hne : [PyStr s] <> [PyInt n]) by discriminate.
  assert (Hne' : [PyInt n] <> [PyStr s]) by discriminate.
  assert (Hb : forall (b : value -> DataFrame -> figure * DataFrame) id q c,
             In b [energy_figure; cost_figure; summary_figure] ->
             snd (handler relabel to_html b id q c) = snd (get_db_data relabel id q c)).
  { intros b id q c Hin. apply handler_state.
    destruct Hin as [<-|[<-|[<-|[]]]]; reflexivity. }
  split; [reflexivity|]. split; [|split].
  - intros r Hr. cbv zeta.
    assert (E : snd (route relabel to_html r q1 st) = snd (get_db_data relabel (PyStr s) q1 st)).
    { destruct Hr as [-> | ->]; apply Hb; simpl; tauto. }
    rewrite E. unfold energy_summary. rewrite Hb by (simpl; tauto).
    unfold get_db_data.
    assert (G : cache_get args_eqb [PyInt n]
                  (entries (snd (call args_eqb maxsize [PyStr s]
                                   (get_db_data_body relabel q1) st))) = None)
      by (apply (call_other args_eqb args_eqb_spec); assumption).
    split; [exact G|]. now apply call_miss_counts.
  - intros r Hr. cbv zeta. unfold energy_summary. rewrite Hb by (simpl; tauto).
    assert (G : cache_get args_eqb [PyStr s]
                  (entries (snd (get_db_data relabel (PyInt n) q1 st))) = None)
      by (apply (call_other args_eqb args_eqb_spec); assumption).
    split; [exact G|].
    assert (E : forall c, snd (route relabel to_html r q2 c) = snd (get_db_data relabel (PyStr s) q2 c)).
    { intros c. destruct Hr as [-> | ->]; apply Hb; simpl; tauto. }
    rewrite E. now apply call_miss_counts.
  - cbv zeta. unfold energy_summary, energy_consumption.
    rewrite !Hb by (simpl; tauto). unfold get_db_data.
    apply (two_keys_two_entries args_eqb args_eqb_spec 30); assumption.
Qed.



(* ================================================================== *)
(** ** The resampled frame, column by column *)
(* ================================================================== *)

Lemma ffill_col_length {A : Type} (l : list (option A)) :
  forall p, List.length (ffill_col p l) = List.length l.
Proof. induction l as [|c l IH]; intros p; cbn [ffill_col List.length]; auto. Qed.

(** A value that is there is kept. *)
Lemma ffill_col_nth_some {A : Type} (l : list (option A)) :
  forall p i v, nth_error l i = Some (Some v) ->
  nth_error (ffill_col p l) i = Some (Some v).
Proof.
  induction l as [|c l IH]; intros p [|i] v H; cbn [ffill_col nth_error] in *;
    try discriminate.
  - injection H as ->. reflexivity.
  - now apply IH.
Qed.

(** Once a value was seen, no cell below is missing. *)
Lemma ffill_col_prev_some {A : Type} (l : list (option A)) :
  forall p c, p <> None -> In c (ffill_col p l) -> c <> None.
Proof.
  induction l as [|c0 l IH]; intros p c Hp H; cbn [ffill_col] in H; [destruct H|].
  assert (Hf : fill p c0 <> None) by (destruct c0; [discriminate|exact Hp]).
  destruct H as [<-|H]; [exact Hf|]. exact (IH _ _ Hf H).
Qed.

(** Every value in the filled column comes from the column. *)
Lemma ffill_col_values {A : Type} (l : list (option A)) :
  forall p v, In (Some v) (ffill_col p l) -> p = Some v \/ In (Some v) l.
Proof.
  induction l as [|c l IH]; intros p v H; cbn [ffill_col] in H; [destruct H|].
  destruct H as [H|H].
  - destruct c as [w|]; cbn [fill] in H; [right; now left|now left].
  - apply IH in H. destruct H as [H|H]; [|right; now right].
    destruct c as [w|]; cbn [fill] in H; [right; now left|now left].
Qed.

Lemma ffill_from_columns (df : DataFrame) :
  forall pe ps pc po,
  map start_time (ffill_from pe ps pc po df) = map start_time df
  /\ map energy_kwh (ffill_from pe ps pc po df) = ffill_col pe (map energy_kwh df)
  /\ map source (ffill_from pe ps pc po df) = ffill_col ps (map source df)
  /\ map cost (ffill_from pe ps pc po df) = ffill_col pc (map cost df)
  /\ map org_name (ffill_from pe ps pc po df) = ffill_col po (map org_name df).
Proof.
  induction df as [|r df IH]; intros pe ps pc po; [repeat split|].
  cbn [ffill_from map ffill_col start_time energy_kwh source cost org_name].
  destruct (IH (fill pe (energy_kwh r)) (fill ps (source r))
               (fill pc (cost r)) (fill po (org_name r)))
    as [H1 [H2 [H3 [H4 H5]]]].
  repeat split; f_equal; assumption.
Qed.

Lemma set_org_name_columns (name : string) (df : DataFrame) :
  map start_time (set_org_name name df) = map start_time df
  /\ map energy_kwh (set_org_name name df) = map energy_kwh df
  /\ map source (set_org_name name df) = map source df
  /\ map cost (set_org_name name df) = map cost df
  /\ map org_name (set_org_name name df) = map (fun _ => Some name) df.
Proof.
  unfold set_org_name. rewrite !map_map. cbn [start_time energy_kwh source cost org_name].
  repeat split.
Qed.

Lemma combine_columns {A B : Type} (l : list A) :
  forall l' : list B, List.length l' = List.length l ->
  map fst (combine l l') = l /\ map snd (combine l l') = l'.
Proof.
  induction l as [|a l IH]; intros [|b l'] H; cbn [List.length] in H;
    try discriminate; [now split|].
  cbn [combine map fst snd]. destruct (IH l') as [H1 H2]; [lia|].
  split; f_equal; assumption.
Qed.

Lemma concat_reset_index_columns (labels : list Z)
  (numeric_df : Z -> option Q * option Q)
  (categorical_df : list (option string * option string)) :
  List.length categorical_df = List.length labels ->
  let df := concat_reset_index labels numeric_df categorical_df in
  map start_time df = labels
  /\ map energy_kwh df = map (fun L => fst (numeric_df L)) labels
  /\ map source df = map fst categorical_df
  /\ map cost df = map (fun L => snd (numeric_df L)) labels
  /\ map org_name df = map snd categorical_df.
Proof.
  intros H. destruct (combine_columns labels categorical_df H) as [H1 H2].
  assert (E1 : forall (B : Type) (g : Z -> B),
             map (fun lc => g (fst lc)) (combine labels categorical_df)
             = map g labels).
  { intros B g. etransitivity; [symmetry; apply (map_map fst g)|now rewrite H1]. }
  assert (E2 : forall (B : Type) (g : option string * option string -> B),
             map (fun lc => g (snd lc)) (combine labels categorical_df)
             = map g categorical_df).
  { intros B g. etransitivity; [symmetry; apply (map_map snd g)|now rewrite H2]. }
  cbv zeta. unfold concat_reset_index. rewrite !map_map.
  cbn [start_time energy_kwh source cost org_name].
  repeat split.
  - exact H1.
  - apply (E1 _ (fun L => fst (numeric_df L))).
  - apply (E2 _ fst).
  - apply (E1 _ (fun L => snd (numeric_df L))).
  - apply (E2 _ snd).
Qed.

Lemma resample_ffill_length (df : DataFrame) (labels : list Z)
  (cats : list (option string * option string)) :
  resample_ffill relabel df labels = Return cats -> List.length cats = List.length labels.
Proof.
  unfold resample_ffill.
  destruct (relabel && inferred_hourly (map start_time df)
            && (List.length df =? List.length labels)%nat) eqn:E.
  - intros [= <-]. apply andb_true_iff in E. destruct E as [_ E].
    apply Nat.eqb_eq in E. now rewrite length_map.
  - destruct (has_duplicates (map start_time df)); [discriminate|].
    intros [= <-]. now rewrite length_map.
Qed.

(** The columns of the frame [resample] returns. *)
Lemma resample_columns (r0 : row) (rest : DataFrame) (t : DataFrame) :
  resample relabel (r0 :: rest) = Return t ->
  let df := r0 :: rest in
  let labels := hour_labels (earliest r0 rest) (latest r0 rest) in
  exists cats name,
    resample_ffill relabel df labels = Return cats
    /\ mode0 (ffill_col None (map snd cats)) = Return name
    /\ map start_time t = labels
    /\ map energy_kwh t = ffill_col None (map (resample_mean energy_kwh df) labels)
    /\ map source t = ffill_col None (map fst cats)
    /\ map cost t = ffill_col None (map (resample_mean cost df) labels)
    /\ map org_name t = map (fun _ => Some name) labels.
Proof.
  intros H. cbv zeta. unfold resample in H. cbn [resample_labels] in H.
  destruct (resample_ffill relabel (r0 :: rest)
              (hour_labels (earliest r0 rest) (latest r0 rest))) as [cats|e] eqn:Hc;
    [|discriminate].
  cbn [Py.bind] in H.
  pose proof (resample_ffill_length _ _ _ Hc) as Hlen.
  destruct (concat_reset_index_columns
              (hour_labels (earliest r0 rest) (latest r0 rest))
              (fun L => (resample_mean energy_kwh (r0 :: rest) L,
                         resample_mean cost (r0 :: rest) L))
              cats Hlen) as [C1 [C2 [C3 [C4 C5]]]].
  cbn [fst snd] in C2, C4.
  set (df1 := concat_reset_index _ _ cats) in *.
  destruct (ffill_from_columns df1 None None None None) as [F1 [F2 [F3 [F4 F5]]]].
  fold (ffill df1) in F1, F2, F3, F4, F5.
  destruct (mode0 (map org_name (ffill df1))) as [name|e] eqn:Hm; [|discriminate].
  cbn [Py.bind] in H. injection H as <-.
  destruct (set_org_name_columns name (ffill df1)) as [S1 [S2 [S3 [S4 S5]]]].
  exists cats, name. repeat split.
  - rewrite <- Hm, F5, C5. reflexivity.
  - now rewrite S1, F1.
  - now rewrite S2, F2, C2.
  - now rewrite S3, F3, C3.
  - now rewrite S4, F4, C4.
  - rewrite S5, <- C1, <- F1, map_map. reflexivity.
Qed.

Lemma index_max_in (ts : list Z) :
  forall t0, In (index_max t0 ts) (t0 :: ts).
Proof.
  unfold index_max. induction ts as [|a ts IH]; intros t0; cbn [fold_left].
  - now left.
  - destruct (IH (Z.max t0 a)) as [E|E].
    + rewrite <- E. destruct (Z.max_spec t0 a) as [[_ ->]|[_ ->]];
        [right; now left|now left].
    + right. now right.
Qed.

Lemma earliest_latest (r0 : row) (rest : DataFrame) :
  (forall r, In r (r0 :: rest) -> earliest r0 rest <= start_time r <= latest r0 rest)
  /\ In (earliest r0 rest) (map start_time (r0 :: rest))
  /\ In (latest r0 rest) (map start_time (r0 :: rest))
  /\ earliest r0 rest <= latest r0 rest.
Proof.
  unfold earliest, latest.
  destruct (index_min_le (map start_time rest) (start_time r0)) as [A1 A2].
  destruct (index_max_ge (map start_time rest) (start_time r0)) as [B1 B2].
  split; [|split; [|split]].
  - intros r [<-|Hr]; [lia|].
    pose proof (in_map start_time _ _ Hr) as Hin.
    specialize (A2 _ Hin). specialize (B2 _ Hin). lia.
  - apply index_min_in.
  - apply index_max_in.
  - lia.
Qed.

(** What the row at one position of the resampled frame holds. *)
Lemma row_at (r0 : row) (rest : DataFrame) (t : DataFrame) (x : row) :
  resample relabel (r0 :: rest) = Return t ->
  In x t ->
  let df := r0 :: rest in
  let labels := hour_labels (earliest r0 rest) (latest r0 rest) in
  exists i cats name,
    resample_ffill relabel df labels = Return cats
    /\ mode0 (ffill_col None (map snd cats)) = Return name
    /\ nth_error labels i = Some (start_time x)
    /\ nth_error (ffill_col None (map (resample_mean energy_kwh df) labels)) i
       = Some (energy_kwh x)
    /\ nth_error (ffill_col None (map fst cats)) i = Some (source x)
    /\ nth_error (ffill_col None (map (resample_mean cost df) labels)) i
       = Some (cost x)
    /\ org_name x = Some name.
Proof.
  intros H Hin. cbv zeta.
  destruct (resample_columns r0 rest t H) as [cats [name [Hc [Hm [C1 [C2 [C3 [C4 C5]]]]]]]].
  destruct (In_nth_error _ _ Hin) as [i Hi].
  exists i, cats, name.
  split; [exact Hc|]. split; [exact Hm|].
  split; [rewrite <- C1; now apply map_nth_error|].
  split; [rewrite <- C2; now apply map_nth_error|].
  split; [rewrite <- C3; now apply map_nth_error|].
  split; [rewrite <- C4; now apply map_nth_error|].
  pose proof (map_nth_error org_name _ _ Hi) as Ho.
  rewrite C5, <- C1, map_map in Ho.
  rewrite (map_nth_error (fun _ => Some name) _ _ Hi) in Ho. congruence.
Qed.

Lemma in_bucket_hour (L : Z) (r : row) :
  floor_hour L = L -> (in_bucket L r = true <-> floor_hour (start_time r) = L).
Proof.
  intros HL. unfold in_bucket. rewrite andb_true_iff, Z.leb_le, Z.ltb_lt. split.
  - intros H. now apply floor_hour_unique.
  - intros <-. split; [apply floor_hour_le|apply floor_hour_lt].
Qed.

(** The two ways of [resample_ffill]. *)
Lemma resample_ffill_cases (df : DataFrame) (labels : list Z)
  (cats : list (option string * option string)) :
  resample_ffill relabel df labels = Return cats ->
  (inferred_hourly (map start_time df) = true
   /\ List.length df = List.length labels
   /\ cats = map (fun r => (source r, org_name r)) df)
  \/ (relabel && inferred_hourly (map start_time df)
      && (List.length df =? List.length labels)%nat = false
      /\ cats = map (fun L => match pad L df with
                              | Some r => (source r, org_name r)
                              | None => (None, None)
                              end) labels).
Proof.
  unfold resample_ffill.
  destruct (relabel && inferred_hourly (map start_time df)
            && (List.length df =? List.length labels)%nat) eqn:E.
  - intros [= <-]. left. apply andb_true_iff in E. destruct E as [E1 E2].
    apply andb_true_iff in E1. destruct E1 as [_ E1].
    apply Nat.eqb_eq in E2. auto.
  - destruct (has_duplicates (map start_time df)); [discriminate|].
    intros [= <-]. right. auto.
Qed.

(** A frame that is not relabelled is reindexed. *)
Lemma resample_ffill_reindexed (df : DataFrame) (labels : list Z)
  (cats : list (option string * option string)) :
  resample_ffill relabel df labels = Return cats ->
  relabel && inferred_hourly (map start_time df) = false ->
  cats = map (fun L => match pad L df with
                       | Some r => (source r, org_name r)
                       | None => (None, None)
                       end) labels.
Proof.
  unfold resample_ffill. intros H E. rewrite E in H. cbn [andb] in H.
  destruct (has_duplicates (map start_time df)); [discriminate|].
  now injection H as <-.
Qed.

Lemma hourly_times (ts : list Z) :
  forall t0, forallb (Z.eqb hour) (deltas (t0 :: ts)) = true ->
  ts = map (fun i => t0 + hour * Z.of_nat i) (seq 1 (List.length ts)).
Proof.
  induction ts as [|a ts IH]; intros t0 H; [reflexivity|].
  cbn [deltas forallb] in H. apply andb_true_iff in H. destruct H as [H1 H2].
  apply Z.eqb_eq in H1. specialize (IH a H2).
  cbn [List.length seq map]. f_equal; [lia|].
  rewrite <- (seq_shift (List.length ts) 1), map_map.
  etransitivity; [exact IH|].
  apply map_ext. intros i. lia.
Qed.

(** A frame whose rows come exactly one hour apart: where its rows and
    its labels are. *)
Lemma hourly_frame (r0 : row) (rest : DataFrame) :
  inferred_hourly (map start_time (r0 :: rest)) = true ->
  map start_time (r0 :: rest)
  = map (fun i => start_time r0 + hour * Z.of_nat i) (seq 0 (S (List.length rest)))
  /\ earliest r0 rest = start_time r0
  /\ hour_labels (earliest r0 rest) (latest r0 rest)
     = map (fun r => floor_hour (start_time r)) (r0 :: rest).
Proof.
  intros H. unfold inferred_hourly in H. apply andb_true_iff in H.
  destruct H as [_ H]. cbn [map] in H.
  pose proof (hourly_times _ _ H) as Hts. rewrite length_map in Hts.
  pose proof hour_pos as Hp.
  set (n := List.length rest) in *. set (t0 := start_time r0) in *.
  assert (Hall : forall t, In t (map start_time rest) ->
                 exists i, t = t0 + hour * Z.of_nat i /\ (1 <= i <= n)%nat).
  { intros t Ht. rewrite Hts in Ht. apply in_map_iff in Ht.
    destruct Ht as [i [<- Hi]]. apply in_seq in Hi. exists i. split; [reflexivity|lia]. }
  assert (Elo : earliest r0 rest = t0).
  { unfold earliest. fold t0.
    destruct (index_min_le (map start_time rest) t0) as [A _].
    destruct (index_min_in (map start_time rest) t0) as [E|E]; [now symmetry|].
    destruct (Hall _ E) as [i [Ei _]]. nia. }
  assert (Ehi : latest r0 rest = t0 + hour * Z.of_nat n).
  { unfold latest. fold t0.
    destruct (index_max_ge (map start_time rest) t0) as [A B].
    assert (Hup : index_max t0 (map start_time rest) <= t0 + hour * Z.of_nat n).
    { destruct (index_max_in (map start_time rest) t0) as [E|E]; [nia|].
      destruct (Hall _ E) as [i [Ei Hi]]. nia. }
    destruct n as [|n']; [lia|].
    assert (Hn : In (t0 + hour * Z.of_nat (S n')) (map start_time rest)).
    { rewrite Hts. apply in_map_iff. exists (S n'). split; [reflexivity|].
      apply in_seq. lia. }
    specialize (B _ Hn). lia. }
  assert (Ets : map start_time (r0 :: rest)
                = map (fun i => t0 + hour * Z.of_nat i) (seq 0 (S n))).
  { cbn [map seq]. f_equal; [fold t0; lia|]. exact Hts. }
  split; [exact Ets|]. split; [exact Elo|].
  rewrite hour_labels_eq.
  assert (Es : span (earliest r0 rest) (latest r0 rest) = n).
  { unfold span. rewrite Elo, Ehi, floor_hour_add.
    replace (floor_hour t0 + hour * Z.of_nat n - floor_hour t0)
      with (Z.of_nat n * hour) by lia.
    rewrite Z.div_mul by lia. apply Nat2Z.id. }
  rewrite Es, Elo.
  transitivity (map floor_hour (map start_time (r0 :: rest)));
    [|now rewrite map_map].
  rewrite Ets, map_map. apply map_ext. intros i. now rewrite floor_hour_add.
Qed.

Lemma last_error_snoc {A : Type} (l : list A) (a : A) :
  last_error (l ++ [a]) = Some a.
Proof.
  induction l as [|b l IH]; [reflexivity|].
  cbn [app last_error]. destruct (l ++ [a])%list eqn:E; [|exact IH].
  destruct l; discriminate.
Qed.

Lemma last_error_in {A : Type} (l : list A) (a : A) :
  last_error l = Some a -> In a l.
Proof.
  induction l as [|b l IH]; [discriminate|].
  cbn [last_error]. destruct l as [|c l]; [intros [= ->]; now left|].
  intros H. right. now apply IH.
Qed.

Lemma last_error_none {A : Type} (l : list A) :
  last_error l = None <-> l = [].
Proof.
  split; [|now intros ->].
  induction l as [|b l IH]; [reflexivity|].
  cbn [last_error]. destruct l as [|c l]; [discriminate|].
  intros H. apply IH in H. discriminate.
Qed.

(** The row that fills label [L]: the last one at or before [L]. *)
Lemma pad_last (L : Z) (pre post : DataFrame) (r : row) :
  start_time r <= L ->
  (forall r', In r' post -> L < start_time r') ->
  pad L (pre ++ r :: post) = Some r.
Proof.
  intros Hr Hpost. unfold pad. rewrite filter_app. cbn [filter].
  destruct (Z.leb_spec (start_time r) L); [|lia].
  replace (filter (fun r' => start_time r' <=? L) post) with (@nil row).
  - apply last_error_snoc.
  - symmetry. clear Hr. induction post as [|r' post IH]; [reflexivity|].
    cbn [filter]. destruct (Z.leb_spec (start_time r') L) as [Hle|_].
    + pose proof (Hpost r' (or_introl eq_refl)). lia.
    + apply IH. intros r'' Hr''. apply Hpost. now right.
Qed.

Lemma pad_in (L : Z) (df : DataFrame) (r : row) :
  pad L df = Some r -> In r df /\ start_time r <= L.
Proof.
  unfold pad. intros H. apply last_error_in, filter_In in H.
  destruct H as [H1 H2]. split; [exact H1|]. now apply Z.leb_le.
Qed.

Lemma pad_none (L : Z) (df : DataFrame) :
  pad L df = None <-> (forall r, In r df -> L < start_time r).
Proof.
  unfold pad. rewrite last_error_none. split.
  - intros H r Hr.
    destruct (Z.leb_spec (start_time r) L) as [Hle|]; [|assumption].
    assert (Hin : In r (filter (fun r => start_time r <=? L) df))
      by (apply filter_In; split; [exact Hr|now apply Z.leb_le]).
    rewrite H in Hin. destruct Hin.
  - intros H. destruct (filter (fun r => start_time r <=? L) df) as [|r l] eqn:E;
      [reflexivity|].
    assert (Hin : In r (filter (fun r => start_time r <=? L) df))
      by (rewrite E; now left).
    apply filter_In in Hin. destruct Hin as [Hr Hle].
    apply Z.leb_le in Hle. specialize (H r Hr). lia.
Qed.

(** The mode is one of the values of the column. *)
Lemma mode0_in (col : list (option string)) (name : string) :
  mode0 col = Return name -> In (Some name) col.
Proof.
  unfold mode0.
  set (l := dropna col).
  assert (Hl : forall v, In v l -> In (Some v) col).
  { intros v Hv. apply in_flat_map in Hv. destruct Hv as [c [Hc Hv]].
    destruct c as [w|]; [|destruct Hv]. destruct Hv as [<-|[]]. exact Hc. }
  assert (Hf : forall l1 init m,
             fold_left (fun best x =>
                          match best with
                          | None => Some x
                          | Some b => if better l x b then Some x else best
                          end) l1 init = Some m ->
             init = Some m \/ In m l1).
  { induction l1 as [|a l1 IH]; intros init m H; [now left|].
    cbn [fold_left] in H. apply IH in H. destruct H as [H|H]; [|right; now right].
    destruct init as [b|].
    - destruct (better l a b); [injection H as <-; right; now left|now left].
    - injection H as <-. right. now left. }
  destruct (fold_left _ l None) as [m|] eqn:E; [|discriminate].
  intros [= <-]. apply Hf in E. destruct E as [E|E]; [discriminate|auto].
Qed.

Lemma count_pos_in (w : string) (l : list string) :
  count w l <> 0%nat -> In w l.
Proof.
  unfold count. intros H.
  destruct (filter (String.eqb w) l) as [|x f] eqn:E; [contradiction|].
  assert (Hx : In x (filter (String.eqb w) l)) by (rewrite E; now left).
  apply filter_In in Hx. destruct Hx as [Hx Hw].
  apply String.eqb_eq in Hw. now subst.
Qed.

(** No value of the column occurs more often than the mode. *)
Lemma mode0_most_frequent (col : list (option string)) (name : string) :
  mode0 col = Return name ->
  forall w, (count w (dropna col) <= count name (dropna col))%nat.
Proof.
  unfold mode0. set (l := dropna col).
  assert (Hf : forall l1 init m,
             fold_left (fun best x =>
                          match best with
                          | None => Some x
                          | Some b => if better l x b then Some x else best
                          end) l1 init = Some m ->
             (forall b, init = Some b -> (count b l <= count m l)%nat)
             /\ (forall w, In w l1 -> (count w l <= count m l)%nat)).
  { induction l1 as [|a l1 IH]; intros init m H.
    - cbn [fold_left] in H. split; [|intros w []].
      intros b Hb. rewrite H in Hb. injection Hb as ->. lia.
    - cbn [fold_left] in H. apply IH in H. destruct H as [H1 H2].
      destruct init as [b|].
      + unfold better in H1.
        destruct (Nat.ltb_spec (count b l) (count a l)) as [Hlt|Hge]; cbn [orb] in H1.
        * specialize (H1 a eq_refl). split.
          -- intros b' [= <-]. lia.
          -- intros w [<-|Hw]; [lia|auto].
        * destruct ((count a l =? count b l)%nat && String.ltb a b) eqn:Et.
          -- apply andb_true_iff in Et. destruct Et as [Et _].
             apply Nat.eqb_eq in Et. specialize (H1 a eq_refl). split.
             ++ intros b' [= <-]. lia.
             ++ intros w [<-|Hw]; [lia|auto].
          -- specialize (H1 b eq_refl). split.
             ++ intros b' [= <-]. lia.
             ++ intros w [<-|Hw]; [lia|auto].
      + specialize (H1 a eq_refl). split; [discriminate|].
        intros w [<-|Hw]; [lia|auto]. }
  destruct (fold_left _ l None) as [m|] eqn:E; [|discriminate].
  intros [= <-] w. apply Hf in E. destruct E as [_ E].
  destruct (Nat.eq_dec (count w l) 0) as [Hz|Hnz]; [lia|].
  apply E. now apply count_pos_in.
Qed.

Lemma present_in {A : Type} (col : row -> option A) (df : DataFrame)
  (r : row) (v : A) :
  In r df -> col r = Some v -> In v (present col df).
Proof.
  intros Hr Hv. unfold present. apply in_flat_map. exists r.
  split; [exact Hr|]. rewrite Hv. now left.
Qed.

(** When [resample] returns a frame for rows [r0 :: rest], the
    [start_time] column of that frame is the run of hour starts from the
    hour of the earliest row to the hour of the latest one: the row at
    position [i] is [i] hours after the first, no label occurs twice, a
    timestamp is a label exactly when it is the start of an hour in that
    range, it then labels exactly one row, and the hour of every input
    row is among the labels. *)
Lemma resample_index :
  forall (r0 : row) (rest t : DataFrame),
  resample relabel (r0 :: rest) = Return t ->
  let idx := map start_time t in
  let lo := earliest r0 rest in
  let hi := latest r0 rest in
  idx = map (fun i => floor_hour lo + hour * Z.of_nat i) (seq 0 (List.length idx))
  /\ NoDup idx
  /\ (forall H, In H idx <-> floor_hour H = H /\ floor_hour lo <= H <= floor_hour hi)
  /\ (forall H, floor_hour H = H -> floor_hour lo <= H <= floor_hour hi ->
                count_occ Z.eq_dec idx H = 1%nat)
  /\ (forall r, In r (r0 :: rest) ->
                lo <= start_time r <= hi /\ In (floor_hour (start_time r)) idx)
  /\ In lo (map start_time (r0 :: rest))
  /\ In hi (map start_time (r0 :: rest)).
Proof.
  intros r0 rest t H. cbv zeta.
  destruct (resample_columns r0 rest t H) as [cats [name [_ [_ [C1 _]]]]].
  destruct (earliest_latest r0 rest) as [Hb [Hlo [Hhi Hle]]].
  rewrite C1.
  assert (Hin : forall H, In H (hour_labels (earliest r0 rest) (latest r0 rest))
                      <-> floor_hour H = H
                          /\ floor_hour (earliest r0 rest) <= H
                             <= floor_hour (latest r0 rest))
    by (intros L; now apply in_hour_labels).
  split; [rewrite hour_labels_length; apply hour_labels_eq|].
  split; [apply hour_labels_NoDup|].
  split; [exact Hin|].
  split; [|split; [|split; [exact Hlo|exact Hhi]]].
  - intros L Hf Hr. apply NoDup_count_occ'; [apply hour_labels_NoDup|].
    apply Hin. now split.
  - intros r Hr. destruct (Hb r Hr) as [A B]. split; [now split|].
    apply Hin. split; [apply floor_hour_idem|].
    split; now apply floor_hour_mono.
Qed.



Lemma nonempty_cons (pre post : DataFrame) (r : row) :
  exists r0 rest, pre ++ r :: post = r0 :: rest.
Proof. destruct pre as [|p pre]; cbn; eauto. Qed.

(** Every categorical value of the upsampled frame is the value of some
    input row. *)
Lemma resample_ffill_values (df : DataFrame) (labels : list Z)
  (cats : list (option string * option string)) :
  resample_ffill relabel df labels = Return cats ->
  forall c, In c cats ->
  c = (None, None) \/ exists r, In r df /\ c = (source r, org_name r).
Proof.
  intros H c Hc. destruct (resample_ffill_cases _ _ _ H) as [[_ [_ ->]]|[_ ->]];
    apply in_map_iff in Hc.
  - destruct Hc as [r [<- Hr]]. right. eauto.
  - destruct Hc as [L [<- _]]. destruct (pad L df) as [r|] eqn:E; [|now left].
    right. exists r. split; [apply (pad_in _ _ _ E)|reflexivity].
Qed.

(** The name [resample] writes into every row: no name occurs more often
    in the forward-filled name column of the upsampled frame, and it is
    the name of some input row. *)
Lemma org_name_constant (r0 : row) (rest t : DataFrame) :
  resample relabel (r0 :: rest) = Return t ->
  exists name cats,
    resample_ffill relabel (r0 :: rest) (resample_labels (r0 :: rest)) = Return cats
    /\ (forall w, (count w (dropna (ffill_col None (map snd cats)))
                   <= count name (dropna (ffill_col None (map snd cats))))%nat)
    /\ (exists r, In r (r0 :: rest) /\ org_name r = Some name)
    /\ forall y, In y t -> org_name y = Some name.
Proof.
  intros H.
  destruct (resample_columns r0 rest t H) as [cats [name [Hc [Hm [_ [_ [_ [_ C5]]]]]]]].
  exists name, cats. split; [exact Hc|].
  split; [now apply mode0_most_frequent|]. split.
  - apply mode0_in, ffill_col_values in Hm. destruct Hm as [Hm|Hm]; [discriminate|].
    apply in_map_iff in Hm. destruct Hm as [c [Hs Hin]].
    destruct (resample_ffill_values _ _ _ Hc c Hin) as [->|[r [Hr ->]]];
      [discriminate|eauto].
  - intros y Hy. apply (in_map org_name) in Hy. rewrite C5 in Hy.
    apply in_map_iff in Hy. destruct Hy as [L [E _]]. now symmetry.
Qed.



Lemma ffill_col_all_some {A : Type} (l : list (option A)) :
  (forall c, In c l -> c <> None) ->
  forall p c, In c (ffill_col p l) -> c <> None.
Proof.
  induction l as [|c0 l IH]; intros Hl p c H; cbn [ffill_col] in H; [destruct H|].
  destruct H as [<-|H].
  - destruct c0; [discriminate|]. exfalso. apply (Hl None); [now left|reflexivity].
  - apply (IH (fun c' Hc' => Hl c' (or_intror Hc')) _ _ H).
Qed.

Lemma ffill_col_head_some {A : Type} (c0 : option A) (l : list (option A)) :
  c0 <> None -> forall c, In c (ffill_col None (c0 :: l)) -> c <> None.
Proof.
  intros H0 c H. cbn [ffill_col] in H.
  assert (Hf : fill None c0 = c0) by now destruct c0.
  rewrite Hf in H. destruct H as [<-|H]; [exact H0|].
  exact (ffill_col_prev_some _ _ _ H0 H).
Qed.

Lemma resample_mean_some (col : row -> option Q) (df : DataFrame) (L : Z) (r : row) :
  In r df -> in_bucket L r = true -> col r <> None ->
  resample_mean col df L <> None.
Proof.
  intros Hr Hb Hc. unfold resample_mean.
  destruct (col r) as [v|] eqn:E; [|congruence].
  assert (Hin : In v (present col (filter (in_bucket L) df))).
  { apply (present_in col _ r); [|exact E]. apply filter_In. now split. }
  destruct (present col (filter (in_bucket L) df)); [destruct Hin|discriminate].
Qed.

(** The sources the upsampling yields when every input row has one: only
    the first can be missing, and it is when the earliest timestamp is
    not the start of its hour and the rows are reindexed. *)
Lemma sources_shape (r0 : row) (rest : DataFrame)
  (cats : list (option string * option string)) :
  (forall r, In r (r0 :: rest) -> source r <> None) ->
  resample_ffill relabel (r0 :: rest) (hour_labels (earliest r0 rest) (latest r0 rest))
  = Return cats ->
  exists c0 cs,
    cats = c0 :: cs
    /\ (forall c, In c cs -> fst c <> None)
    /\ (fst c0 = None
        <-> floor_hour (earliest r0 rest) <> earliest r0 rest
            /\ relabel && inferred_hourly (map start_time (r0 :: rest)) = false).
Proof.
  intros Hsrc Hc. pose proof hour_pos as Hp.
  destruct (earliest_latest r0 rest) as [Hb [Hlo [_ Hle]]].
  apply in_map_iff in Hlo. destruct Hlo as [rlo [Elo Hrlo]].
  destruct (relabel && inferred_hourly (map start_time (r0 :: rest))) eqn:Hre.
  - apply andb_true_iff in Hre. destruct Hre as [Hrel Hh].
    destruct (hourly_frame r0 rest Hh) as [_ [_ Elab]].
    unfold resample_ffill in Hc.
    rewrite Hrel, Hh, Elab, length_map, Nat.eqb_refl in Hc. cbn [andb] in Hc.
    injection Hc as <-.
    exists (source r0, org_name r0), (map (fun r => (source r, org_name r)) rest).
    split; [reflexivity|]. split.
    + intros c Hin. apply in_map_iff in Hin. destruct Hin as [r [<- Hr]].
      apply Hsrc. now right.
    + cbn [fst]. split.
      * intros E. exfalso. apply (Hsrc r0); [now left|exact E].
      * intros [_ E]. congruence.
  - rewrite (resample_ffill_reindexed _ _ _ Hc Hre).
    rewrite hour_labels_cons. cbn [map]. eexists; eexists.
    split; [reflexivity|]. split.
    + intros c Hin. apply in_map_iff in Hin. destruct Hin as [L [<- HL]].
      apply in_map_iff in HL. destruct HL as [i [<- Hi]]. apply in_seq in Hi.
      destruct (pad (floor_hour (earliest r0 rest) + hour * Z.of_nat i) (r0 :: rest))
        as [r|] eqn:E.
      * cbn [fst]. apply Hsrc. apply (pad_in _ _ _ E).
      * exfalso. rewrite pad_none in E. specialize (E rlo Hrlo).
        pose proof (floor_hour_le (earliest r0 rest)).
        pose proof (floor_hour_lt (earliest r0 rest)). nia.
    + destruct (pad (floor_hour (earliest r0 rest)) (r0 :: rest)) as [r|] eqn:E;
        cbn [fst].
      * split.
        -- intros N. exfalso. apply (Hsrc r); [apply (pad_in _ _ _ E)|exact N].
        -- intros [Hne _]. exfalso. apply Hne.
           destruct (pad_in _ _ _ E) as [Hr Hle'].
           pose proof (floor_hour_le (earliest r0 rest)).
           destruct (Hb r Hr). lia.
      * split; [|reflexivity]. intros _. split; [|reflexivity].
        rewrite pad_none in E. specialize (E rlo Hrlo). lia.
Qed.

(** C9 (amended). When every input row carries energy, cost and source
    and [resample] returns a frame, the first row of the frame is the row
    of the hour of the earliest input row; no energy, cost or
    organisation-name cell is missing, and no source cell after the first
    row is; the source of the first row is there when the earliest
    timestamp is the start of its hour, and is missing when it is not and
    the rows are reindexed, as pandas 3 always does and pandas 2 does
    unless the rows come exactly one hour apart (three or more of
    them). *)
Theorem only_first_source_cell_can_be_unset :
  forall (r0 : row) (rest t : DataFrame),
  (forall r, In r (r0 :: rest) ->
             energy_kwh r <> None /\ cost r <> None /\ source r <> None) ->
  resample relabel (r0 :: rest) = Return t ->
  exists x0 t',
    t = x0 :: t'
    /\ start_time x0 = floor_hour (earliest r0 rest)
    /\ (forall x, In x t ->
                  energy_kwh x <> None /\ cost x <> None /\ org_name x <> None)
    /\ (forall x, In x t' -> source x <> None)
    /\ (floor_hour (earliest r0 rest) = earliest r0 rest -> source x0 <> None)
    /\ (floor_hour (earliest r0 rest) <> earliest r0 rest ->
        relabel && inferred_hourly (map start_time (r0 :: rest)) = false ->
        source x0 = None).
Proof.
  intros r0 rest t Hall H.
  destruct (resample_columns r0 rest t H)
    as [cats [name [Hc [_ [C1 [C2 [C3 [C4 _]]]]]]]].
  destruct (org_name_constant r0 rest t H) as [nm [_ [_ [_ [_ Hnm]]]]].
  destruct (sources_shape r0 rest cats
              (fun r Hr => proj2 (proj2 (Hall r Hr))) Hc)
    as [c0 [cs [-> [Hcs Hc0]]]].
  rewrite hour_labels_cons in C1, C2, C4.
  destruct t as [|x0 t']; [discriminate|].
  cbn [map] in C1, C2, C3, C4.
  exists x0, t'. split; [reflexivity|].
  split; [now injection C1|]. split; [|split].
  - destruct (earliest_latest r0 rest) as [_ [Hlo _]].
    apply in_map_iff in Hlo. destruct Hlo as [rlo [Elo Hrlo]].
    assert (Hbk : in_bucket (floor_hour (earliest r0 rest)) rlo = true).
    { apply in_bucket_hour; [apply floor_hour_idem|now rewrite Elo]. }
    destruct (Hall rlo Hrlo) as [He [Hco _]].
    intros x Hx. split; [|split].
    + pose proof (in_map energy_kwh _ _ Hx) as Hx'. cbn [map] in Hx'.
      rewrite C2 in Hx'. revert Hx'. apply ffill_col_head_some.
      exact (resample_mean_some energy_kwh _ _ rlo Hrlo Hbk He).
    + pose proof (in_map cost _ _ Hx) as Hx'. cbn [map] in Hx'.
      rewrite C4 in Hx'. revert Hx'. apply ffill_col_head_some.
      exact (resample_mean_some cost _ _ rlo Hrlo Hbk Hco).
    + rewrite (Hnm x Hx). discriminate.
  - intros x Hx. cbn [ffill_col] in C3. injection C3 as _ C3.
    apply (ffill_col_all_some (map fst cs)) with (p := fill None (fst c0)).
    + intros c Hin. apply in_map_iff in Hin. destruct Hin as [c' [<- Hc']].
      now apply Hcs.
    + rewrite <- C3. apply (in_map source _ _ Hx).
  - cbn [ffill_col] in C3. injection C3 as C3 _.
    assert (E : source x0 = fst c0) by (rewrite C3; now destruct (fst c0)).
    rewrite E. split.
    + intros Hon N. apply Hc0 in N. destruct N as [N _]. contradiction.
    + intros Hoff Hre. apply Hc0. now split.
Qed.

(* ================================================================== *)
(** ** The endpoints *)
(* ================================================================== *)

(** C1 (what the code does when the store query fails). [get_db_data]
    raises [HTTPException(500, "Database error: ...")], but the handler
    catches it with every other exception and raises
    [HTTPException(400)] with the text of the caught one: the client gets
    status 400, not 500. The query was run once and nothing was stored. *)
Theorem store_failure_answers_400 :
  forall (to_html : figure -> result string) (r : request) (msg : string) (st : cache),
  cache_get args_eqb (request_key r) (entries st) = None ->
  get_db_data_body relabel (Raise (Exception msg))
  = Raise (HTTPException 500 ("Database error: " ++ msg)%string)
  /\ fst (route relabel to_html r (Raise (Exception msg)) st)
     = HTTP 400 ("500: Database error: " ++ msg)%string
  /\ entries (snd (route relabel to_html r (Raise (Exception msg)) st)) = entries st
  /\ misses (snd (route relabel to_html r (Raise (Exception msg)) st)) = S (misses st).
Proof.
  intros to_html r msg st H. split; [reflexivity|].
  destruct r as [s|s|n]; cbn [request_key] in H;
    cbn [route]; unfold energy_consumption, energy_cost, energy_summary, handler,
      get_db_data, call, maxsize; rewrite H; repeat split.
Qed.

(** C3 (what the code does for an organisation without rows). The
    pipeline returns the empty frame as it is, and each handler relabel answers
    with what the rendering gives; but the title it builds ends in the
    text of the set [{org_id}], the identifier in braces (and, for the
    string identifier of the energy and cost routes, in quotes), not in
    the identifier itself. *)
Theorem empty_table_title_is_a_set_display :
  forall (to_html : figure -> result string) (s : string) (n : Z),
  get_db_data_body relabel (Return []) = Return []
  /\ title (fst (energy_figure (PyStr s) []))
     = ("Energy Consumption - {" ++ repr_str s ++ "}")%string
  /\ title (fst (cost_figure (PyStr s) []))
     = ("Energy Consumption - {" ++ repr_str s ++ "}")%string
  /\ title (fst (summary_figure (PyInt n) []))
     = ("Energy Consumption - {" ++ str_int n ++ "}")%string
  /\ fst (energy_consumption relabel to_html s (Return []) (empty (list value) DataFrame))
     = match to_html (fst (energy_figure (PyStr s) [])) with
       | Return html => HTTP 200 html
       | Raise e => HTTP 400 (str_exn e)
       end
  /\ fst (energy_cost relabel to_html s (Return []) (empty (list value) DataFrame))
     = match to_html (fst (cost_figure (PyStr s) [])) with
       | Return html => HTTP 200 html
       | Raise e => HTTP 400 (str_exn e)
       end
  /\ fst (energy_summary relabel to_html n (Return []) (empty (list value) DataFrame))
     = match to_html (fst (summary_figure (PyInt n) [])) with
       | Return html => HTTP 200 html
       | Raise e => HTTP 400 (str_exn e)
       end
  /\ title (fst (energy_figure (PyStr "acme") [])) = "Energy Consumption - {'acme'}"
  /\ title (fst (energy_figure (PyStr "acme") [])) <> "Energy Consumption - acme"
  /\ title (fst (summary_figure (PyInt 5) [])) = "Energy Consumption - {5}".
Proof.
  intros to_html s n. repeat split. discriminate.
Qed.

(* ================================================================== *)
(** ** More about the cache *)
(* ================================================================== *)

Section LruInvariants.

Variables K V : Type.
Variable key_eqb : K -> K -> bool.
Hypothesis key_eqb_spec : forall a b, key_eqb a b = true <-> a = b.

Lemma cache_get_none_notin (k : K) (l : list (K * V)) :
  cache_get key_eqb k l = None -> ~ In k (map fst l).
Proof.
  induction l as [|[k' v] l IH]; cbn [cache_get map fst]; [intros _ []|].
  destruct (key_eqb k k') eqn:E; [discriminate|].
  intros H [->|Hin]; [|now apply IH].
  rewrite (key_eqb_refl key_eqb key_eqb_spec) in E. discriminate.
Qed.

Lemma cache_del_shrinks (k : K) (v : V) (l : list (K * V)) :
  cache_get key_eqb k l = Some v ->
  (List.length (cache_del key_eqb k l) < List.length l)%nat.
Proof.
  intros H. rewrite <- (length_map fst (cache_del key_eqb k l)), keys_cache_del.
  exact (@cache_get_some_shrinks K V key_eqb k v l H).
Qed.

(** A call never makes the cache longer than its capacity. *)
Lemma call_length (m : nat) (k : K) (o : result V) (st : state K V) :
  (List.length (entries st) <= m)%nat ->
  (List.length (entries (snd (call key_eqb m k o st))) <= m)%nat.
Proof.
  intros H. unfold call. destruct m as [|m]; [exact H|].
  destruct (cache_get key_eqb k (entries st)) as [v|] eqn:G.
  - cbn [snd entries List.length]. apply cache_del_shrinks in G. lia.
  - destruct o as [v|e]; [|exact H]. cbn [snd entries].
    destruct (Nat.leb_spec (S m) (List.length (entries st))) as [F|F];
      cbn [List.length]; [|lia].
    rewrite removelast_firstn_len, length_firstn. lia.
Qed.

Lemma NoDup_removelast {A : Type} (l : list A) : NoDup l -> NoDup (removelast l).
Proof.
  intros H. destruct l as [|a l]; [exact H|].
  rewrite (app_removelast_last a) in H by discriminate.
  now apply NoDup_app_remove_r in H.
Qed.

(** A call never stores a key twice. *)
Lemma call_NoDup (m : nat) (k : K) (o : result V) (st : state K V) :
  NoDup (keys st) -> NoDup (keys (snd (call key_eqb m k o st))).
Proof.
  intros H. unfold call, keys in *. destruct m as [|m]; [exact H|].
  destruct (cache_get key_eqb k (entries st)) as [v|] eqn:G.
  - cbn [snd entries map fst]. rewrite keys_cache_del. constructor.
    + intros Hin. apply filter_In in Hin. destruct Hin as [_ Hin].
      unfold differs in Hin.
      rewrite (key_eqb_refl key_eqb key_eqb_spec) in Hin. discriminate.
    + now apply NoDup_filter.
  - destruct o as [v|e]; [|exact H]. cbn [snd entries].
    pose proof (cache_get_none_notin _ _ G) as Hn.
    destruct (S m <=? List.length (entries st))%nat; cbn [map fst];
      constructor; try assumption.
    + rewrite removelast_firstn_len, <- firstn_map.
      intros Hin. apply Hn. revert Hin. apply In_firstn.
    + rewrite removelast_firstn_len, <- firstn_map.
      rewrite <- (firstn_skipn (Init.Nat.pred (List.length (entries st)))
                    (map fst (entries st))) in H.
      now apply NoDup_app_remove_r in H.
Qed.

(** Every call counts as one hit or one miss. *)
Lemma call_counts (m : nat) (k : K) (o : result V) (st : state K V) :
  (hits (snd (call key_eqb m k o st)) + misses (snd (call key_eqb m k o st))
   = S (hits st + misses st))%nat.
Proof.
  unfold call. destruct m as [|m]; [cbn; lia|].
  destruct (cache_get key_eqb k (entries st)); [cbn; lia|].
  destruct o; cbn; lia.
Qed.

(** A hit changes no lookup. *)
Lemma call_hit_frame (m : nat) (k k' : K) (o : result V) (t : V) (st : state K V) :
  cache_get key_eqb k (entries st) = Some t ->
  cache_get key_eqb k' (entries (snd (call key_eqb m k o st)))
  = cache_get key_eqb k' (entries st).
Proof.
  intros H. destruct m as [|m]; [reflexivity|].
  rewrite (call_hit key_eqb m k o st H). cbn [snd entries cache_get].
  destruct (key_eqb k' k) eqn:E.
  - apply key_eqb_spec in E. subst k'. now symmetry.
  - apply (key_eqb_false key_eqb key_eqb_spec) in E.
    now apply cache_get_del_other.
Qed.

(** Below capacity a call drops nothing. *)
Lemma call_keeps_below_capacity (m : nat) (k k' : K) (o : result V) (t : V)
  (st : state K V) :
  (List.length (entries st) < m)%nat ->
  cache_get key_eqb k' (entries st) = Some t ->
  cache_get key_eqb k' (entries (snd (call key_eqb m k o st))) = Some t.
Proof.
  intros Hlen H.
  destruct (cache_get key_eqb k (entries st)) as [v|] eqn:G.
  - now rewrite (call_hit_frame m k k' o v st G).
  - unfold call. destruct m as [|m]; [exact H|]. rewrite G.
    destruct o as [v|e]; [|exact H]. cbn [snd entries].
    destruct (Nat.leb_spec (S m) (List.length (entries st))); [lia|].
    cbn [cache_get]. destruct (key_eqb k' k) eqn:E; [|exact H].
    apply key_eqb_spec in E. subst k'. congruence.
Qed.

End LruInvariants.

Lemma requests_invariant (calls : list (value * result DataFrame)) :
  forall st : cache,
  (List.length (entries st) <= maxsize)%nat ->
  NoDup (keys st) ->
  (List.length (entries (requests relabel calls st)) <= maxsize)%nat
  /\ NoDup (keys (requests relabel calls st))
  /\ (hits (requests relabel calls st) + misses (requests relabel calls st)
      = hits st + misses st + List.length calls)%nat.
Proof.
  induction calls as [|c calls IH]; intros st Hl Hn.
  - cbn. repeat split; try assumption. lia.
  - rewrite requests_cons.
    destruct (IH (snd (get_db_data relabel (fst c) (snd c) st))) as [A [B C]].
    + now apply call_length.
    + now apply (call_NoDup _ _ args_eqb args_eqb_spec).
    + split; [exact A|]. split; [exact B|]. rewrite C.
      unfold get_db_data. rewrite call_counts. cbn [List.length]. lia.
Qed.

(** X1. Whatever calls are made on a fresh cache, and whether they return
    or raise: the cache never holds more than 32 entries, never two
    entries for one key, and its two counters add up to the number of
    calls made. *)
Theorem cache_stays_bounded :
  forall calls : list (value * result DataFrame),
  let st := requests relabel calls (empty (list value) DataFrame) in
  (List.length (entries st) <= 32)%nat
  /\ NoDup (keys st)
  /\ (hits st + misses st = List.length calls)%nat.
Proof.
  intros calls. cbv zeta.
  destruct (requests_invariant calls (empty (list value) DataFrame)) as [A [B C]].
  - cbn. lia.
  - constructor.
  - split; [exact A|]. split; [exact B|]. rewrite C. reflexivity.
Qed.

(** X2. A call that raises is not remembered: the entries are as before,
    and the next call with the same key runs the query again and yields
    what that computation yields. *)
Theorem failure_is_not_cached :
  forall (org_id : value) (q1 q2 : result DataFrame) (st : cache) (e : exn),
  fst (get_db_data relabel org_id q1 st) = Raise e ->
  entries (snd (get_db_data relabel org_id q1 st)) = entries st
  /\ fst (get_db_data relabel org_id q2 (snd (get_db_data relabel org_id q1 st)))
     = get_db_data_body relabel q2.
Proof.
  intros org_id q1 q2 st e H. unfold get_db_data, call, maxsize in *.
  destruct (cache_get args_eqb [org_id] (entries st)) as [v|] eqn:G;
    [discriminate|].
  destruct (get_db_data_body relabel q1) as [v|e1]; [discriminate|].
  cbn [snd entries]. split; [reflexivity|]. rewrite G.
  now destruct (get_db_data_body relabel q2).
Qed.

(** X3. A request whose frame is already stored changes no lookup: every
    key holds after the request what it held before, on each route relabel and
    whatever the query or the rendering would do, and nothing is
    computed. *)
Theorem cache_hit_keeps_every_entry :
  forall (to_html : figure -> result string) (r : request)
         (q : result DataFrame) (st : cache) (t : DataFrame),
  cache_get args_eqb (request_key r) (entries st) = Some t ->
  (forall k, cache_get args_eqb k (entries (snd (route relabel to_html r q st)))
             = cache_get args_eqb k (entries st))
  /\ misses (snd (route relabel to_html r q st)) = misses st.
Proof.
  intros to_html r q st t H.
  destruct (route_state to_html r q st) as [org_id [Hk ->]].
  rewrite Hk in H. unfold get_db_data. split.
  - intros k. now apply (call_hit_frame _ _ args_eqb args_eqb_spec) with (t := t).
  - change maxsize with (S 31).
    now rewrite (call_hit args_eqb 31 [org_id] (get_db_data_body relabel q) st H).
Qed.

(** X4. While fewer than 32 frames are stored, no request evicts
    anything: every stored frame is still stored after the request. *)
Theorem no_eviction_below_capacity :
  forall (to_html : figure -> result string) (r : request)
         (q : result DataFrame) (st : cache) (k : list value) (t : DataFrame),
  (List.length (entries st) < 32)%nat ->
  cache_get args_eqb k (entries st) = Some t ->
  cache_get args_eqb k (entries (snd (route relabel to_html r q st))) = Some t.
Proof.
  intros to_html r q st k t Hlen H.
  destruct (route_state to_html r q st) as [org_id [_ ->]].
  unfold get_db_data.
  now apply (call_keeps_below_capacity _ _ args_eqb args_eqb_spec).
Qed.

(* ================================================================== *)
(** ** When the resampling returns and when it raises *)
(* ================================================================== *)

Lemma existsb_eqb_false (t : Z) (ts : list Z) :
  existsb (Z.eqb t) ts = false <-> ~ In t ts.
Proof.
  split.
  - intros H Hin. assert (E : existsb (Z.eqb t) ts = true).
    { apply existsb_exists. exists t. split; [exact Hin|apply Z.eqb_refl]. }
    congruence.
  - intros H. destruct (existsb (Z.eqb t) ts) eqn:E; [|reflexivity].
    apply existsb_exists in E. destruct E as [u [Hu E]].
    apply Z.eqb_eq in E. subst u. contradiction.
Qed.

Lemma has_duplicates_NoDup (ts : list Z) :
  has_duplicates ts = false <-> NoDup ts.
Proof.
  induction ts as [|t ts IH]; cbn [has_duplicates].
  - split; [constructor|reflexivity].
  - rewrite orb_false_iff, existsb_eqb_false, IH. split.
    + intros [A B]. now constructor.
    + intros H. inversion H. now split.
Qed.

Lemma hourly_no_duplicates (r0 : row) (rest : DataFrame) :
  inferred_hourly (map start_time (r0 :: rest)) = true ->
  has_duplicates (map start_time (r0 :: rest)) = false.
Proof.
  intros H. destruct (hourly_frame r0 rest H) as [Ets _].
  apply has_duplicates_NoDup. rewrite Ets.
  apply Injective_map_NoDup_in; [|apply seq_NoDup].
  intros i j _ _ E. pose proof hour_pos. nia.
Qed.

Lemma hourly_has_three (r0 : row) (rest : DataFrame) :
  inferred_hourly (map start_time (r0 :: rest)) = true ->
  (3 <= List.length (hour_labels (earliest r0 rest) (latest r0 rest)))%nat.
Proof.
  intros H. destruct (hourly_frame r0 rest H) as [_ [_ ->]].
  unfold inferred_hourly in H. apply andb_true_iff in H. destruct H as [H _].
  apply Nat.leb_le in H. now rewrite !length_map in *.
Qed.

Lemma mode0_returns (col : list (option string)) (v : string) :
  In (Some v) col -> exists name, mode0 col = Return name.
Proof.
  intros H. unfold mode0.
  assert (Hl : In v (dropna col)).
  { apply in_flat_map. exists (Some v). split; [exact H|now left]. }
  assert (Hf : forall l l1 init, init <> None \/ l1 <> [] -> exists m,
             fold_left (fun best x =>
                          match best with
                          | None => Some x
                          | Some b => if better l x b then Some x else best
                          end) l1 init = Some m).
  { intros l. induction l1 as [|a l1 IH]; intros init Hi; cbn [fold_left].
    - destruct Hi as [Hi|Hi]; [|contradiction]. destruct init; [eauto|contradiction].
    - apply IH. left. destruct init as [b|]; [destruct (better l a b)|]; discriminate. }
  destruct (Hf (dropna col) (dropna col) None) as [m ->]; [|eauto].
  right. intros E. rewrite E in Hl. destruct Hl.
Qed.

(** X6. Two input rows with one timestamp make the resampling raise:
    the categorical columns cannot be reindexed, and [get_db_data] turns
    this into its database error. *)
Theorem duplicate_timestamps_raise :
  forall (r0 : row) (rest : DataFrame),
  has_duplicates (map start_time (r0 :: rest)) = true ->
  resample relabel (r0 :: rest)
  = Raise (Exception "cannot reindex on an axis with duplicate labels")
  /\ get_db_data_body relabel (Return (r0 :: rest))
     = Raise (HTTPException 500
                "Database error: cannot reindex on an axis with duplicate labels").
Proof.
  intros r0 rest H.
  assert (E : resample relabel (r0 :: rest)
              = Raise (Exception "cannot reindex on an axis with duplicate labels")).
  { unfold resample, resample_ffill.
    destruct (inferred_hourly (map start_time (r0 :: rest))) eqn:Hh.
    - apply hourly_no_duplicates in Hh. congruence.
    - rewrite andb_false_r. cbn [andb]. now rewrite H. }
  split; [exact E|]. unfold get_db_data_body. cbn [Py.bind]. now rewrite E.
Qed.

(** The one label of rows that all fall in one hour, and what the
    resampling does when that label precedes them all. *)
Lemma one_label_raises (r0 : row) (rest : DataFrame) :
  has_duplicates (map start_time (r0 :: rest)) = false ->
  floor_hour (latest r0 rest) = floor_hour (earliest r0 rest) ->
  floor_hour (earliest r0 rest) <> earliest r0 rest ->
  resample_labels (r0 :: rest) = [floor_hour (earliest r0 rest)]
  /\ resample relabel (r0 :: rest) = Raise (Exception "0")
  /\ get_db_data_body relabel (Return (r0 :: rest))
     = Raise (HTTPException 500 "Database error: 0").
Proof.
  intros Hd Hsame Hoff.
  destruct (earliest_latest r0 rest) as [Hb _].
  assert (Hs : span (earliest r0 rest) (latest r0 rest) = 0%nat).
  { unfold span. rewrite Hsame, Z.sub_diag. reflexivity. }
  assert (Hl : hour_labels (earliest r0 rest) (latest r0 rest)
               = [floor_hour (earliest r0 rest)]).
  { rewrite hour_labels_cons, Hs. reflexivity. }
  assert (Hh : inferred_hourly (map start_time (r0 :: rest)) = false).
  { destruct (inferred_hourly (map start_time (r0 :: rest))) eqn:Hh; [|reflexivity].
    apply hourly_has_three in Hh. rewrite Hl in Hh. cbn in Hh. lia. }
  assert (Hp : pad (floor_hour (earliest r0 rest)) (r0 :: rest) = None).
  { apply pad_none. intros r Hr. destruct (Hb r Hr).
    pose proof (floor_hour_le (earliest r0 rest)). lia. }
  assert (E : resample relabel (r0 :: rest) = Raise (Exception "0")).
  { unfold resample. cbn [resample_labels]. rewrite Hl.
    unfold resample_ffill. rewrite Hh, andb_false_r, Hd. cbn [andb map].
    rewrite Hp. reflexivity. }
  split; [exact Hl|].
  split; [exact E|]. unfold get_db_data_body. cbn [Py.bind]. now rewrite E.
Qed.

(** X7. Input rows with distinct timestamps that all fall in one hour,
    none of them at the start of the hour, make the resampling raise: the
    one label precedes every row, so no organisation name reaches it and
    [mode()[0]] finds nothing. *)
Theorem readings_within_one_hour_raise :
  forall (r0 : row) (rest : DataFrame),
  has_duplicates (map start_time (r0 :: rest)) = false ->
  floor_hour (latest r0 rest) = floor_hour (earliest r0 rest) ->
  floor_hour (earliest r0 rest) <> earliest r0 rest ->
  resample relabel (r0 :: rest) = Raise (Exception "0")
  /\ get_db_data_body relabel (Return (r0 :: rest))
     = Raise (HTTPException 500 "Database error: 0").
Proof.
  intros r0 rest Hd Hsame Hoff.
  exact (proj2 (one_label_raises r0 rest Hd Hsame Hoff)).
Qed.

(** C4. A record set of one record whose timestamp is not the start of
    its hour is not empty, and the resampling makes no frame of it: the
    index it builds is the one hour of the record, no organisation name
    reaches that label, [mode()[0]] raises [KeyError(0)] and
    [get_db_data] reports a database error. *)
Theorem single_record_has_no_output_table :
  forall r : row,
  floor_hour (start_time r) <> start_time r ->
  [r] <> []
  /\ resample_labels [r] = [floor_hour (start_time r)]
  /\ resample relabel [r] = Raise (Exception "0")
  /\ get_db_data_body relabel (Return [r])
     = Raise (HTTPException 500 "Database error: 0").
Proof.
  intros r Hoff. split; [discriminate|].
  apply (one_label_raises r []); [reflexivity|reflexivity|exact Hoff].
Qed.

(** C5. The example of the numeric aggregation itself: for the records
    of 10:05 and 10:40 with energies 2.0 and 4.0, the only hour of the
    index is 10:00 and line 62 computes the mean 3.0 for it, but no table
    with that row is returned. The label precedes both records, so no
    organisation name reaches it, [mode()[0]] raises [KeyError(0)],
    [get_db_data] turns this into its database error, and a request that
    finds nothing stored under its key is answered with status 400. *)
Theorem mean_of_the_example_is_not_returned :
  forall (to_html : figure -> result string) (r : request) (st : cache),
  cache_get args_eqb (request_key r) (entries st) = None ->
  resample_labels one_hour = [clock 10 0]
  /\ resample_mean energy_kwh one_hour (clock 10 0) = Some 3%Q
  /\ resample relabel one_hour = Raise (Exception "0")
  /\ get_db_data_body relabel (Return one_hour)
     = Raise (HTTPException 500 "Database error: 0")
  /\ fst (route relabel to_html r (Return one_hour) st)
     = HTTP 400 "500: Database error: 0"
  /\ entries (snd (route relabel to_html r (Return one_hour) st)) = entries st.
Proof.
  intros to_html r st H.
  destruct (one_label_raises
              (reading (clock 10 5) 2 "solar" 1 "Acme")
              [reading (clock 10 40) 4 "solar" 1 "Acme"])
    as [_ [Hr Hb]];
    [reflexivity|vm_compute; reflexivity|vm_compute; discriminate|].
  fold one_hour in Hr, Hb.
  split; [vm_compute; reflexivity|]. split; [vm_compute; reflexivity|].
  split; [exact Hr|]. split; [exact Hb|].
  exact (route_raise to_html r (Return one_hour) st _ H Hb).
Qed.

(** When the resampling yields a frame. *)
Lemma resample_yields (r0 : row) (rest : DataFrame) :
  has_duplicates (map start_time (r0 :: rest)) = false ->
  (forall r, In r (r0 :: rest) -> org_name r <> None) ->
  floor_hour (earliest r0 rest) = earliest r0 rest
  \/ floor_hour (earliest r0 rest) < floor_hour (latest r0 rest) ->
  exists t, resample relabel (r0 :: rest) = Return t.
Proof.
  intros Hd Ho Hreach. pose proof hour_pos as Hp.
  destruct (earliest_latest r0 rest) as [Hb [Hlo [_ Hle]]].
  apply in_map_iff in Hlo. destruct Hlo as [rlo [Elo Hrlo]].
  set (labels := hour_labels (earliest r0 rest) (latest r0 rest)).
  assert (Hc : exists cats, resample_ffill relabel (r0 :: rest) labels = Return cats
                            /\ exists v, In (Some v) (map snd cats)).
  { unfold resample_ffill.
    destruct (relabel && inferred_hourly (map start_time (r0 :: rest))
              && (List.length (r0 :: rest) =? List.length labels)%nat).
    - eexists. split; [reflexivity|]. cbn [map snd].
      destruct (org_name r0) as [v|] eqn:E.
      + exists v. now left.
      + exfalso. apply (Ho r0); [now left|exact E].
    - rewrite Hd. eexists. split; [reflexivity|].
      assert (HL : exists L, In L labels /\ earliest r0 rest <= L).
      { destruct Hreach as [Hon|Hlt].
        - exists (floor_hour (earliest r0 rest)). split; [|lia].
          apply in_hour_labels; [exact Hle|].
          split; [apply floor_hour_idem|]. split; [lia|now apply floor_hour_mono].
        - exists (floor_hour (latest r0 rest)). split.
          + apply in_hour_labels; [exact Hle|].
            split; [apply floor_hour_idem|]. split; [now apply floor_hour_mono|lia].
          + pose proof (floor_hour_lt (earliest r0 rest)) as A.
            unfold floor_hour in A, Hlt |- *.
            assert (earliest r0 rest / hour < latest r0 rest / hour) by nia.
            nia. }
      destruct HL as [L [HL Hge]].
      destruct (pad L (r0 :: rest)) as [r|] eqn:E.
      + destruct (org_name r) as [v|] eqn:Er.
        * exists v. rewrite map_map. apply in_map_iff. exists L.
          split; [|exact HL]. now rewrite E.
        * exfalso. apply (Ho r); [apply (pad_in _ _ _ E)|exact Er].
      + exfalso. rewrite pad_none in E. specialize (E rlo Hrlo). lia. }
  destruct Hc as [cats [Hc [v Hv]]].
  pose proof (resample_ffill_length _ _ _ Hc) as Hlen.
  set (num := fun L => (resample_mean energy_kwh (r0 :: rest) L,
                        resample_mean cost (r0 :: rest) L)).
  destruct (concat_reset_index_columns labels num cats Hlen) as [_ [_ [_ [_ C5]]]].
  destruct (ffill_from_columns (concat_reset_index labels num cats)
              None None None None) as [_ [_ [_ [_ F5]]]].
  fold (ffill (concat_reset_index labels num cats)) in F5.
  assert (Hm : exists name,
             mode0 (map org_name (ffill (concat_reset_index labels num cats)))
             = Return name).
  { rewrite F5, C5. destruct (In_nth_error _ _ Hv) as [i Hi].
    apply (mode0_returns _ v).
    apply (nth_error_In _ i). now apply ffill_col_nth_some. }
  destruct Hm as [name Hm].
  unfold resample. cbn [resample_labels]. fold labels. rewrite Hc.
  cbn [Py.bind]. fold num. rewrite Hm. cbn [Py.bind]. eauto.
Qed.

(** X8. Input rows with distinct timestamps that all carry an
    organisation name are resampled to a frame, without an exception,
    whenever the earliest row is at the start of its hour or the rows
    reach into a later hour. *)
Theorem resample_returns :
  forall (r0 : row) (rest : DataFrame),
  has_duplicates (map start_time (r0 :: rest)) = false ->
  (forall r, In r (r0 :: rest) -> org_name r <> None) ->
  floor_hour (earliest r0 rest) = earliest r0 rest
  \/ floor_hour (earliest r0 rest) < floor_hour (latest r0 rest) ->
  exists t, resample relabel (r0 :: rest) = Return t.
Proof.
  intros r0 rest. apply resample_yields.
Qed.

(** X15. Input rows with distinct timestamps that all carry an
    organisation name, the earliest at the start of its hour or the
    latest in a later hour, are resampled to a frame whose [start_time]
    column is the run of hour starts from the hour of the earliest row
    to the hour of the latest one: the row at position [i] is [i] hours
    after the first, no label occurs twice, a timestamp is a label
    exactly when it is the start of an hour in that range, it then
    labels exactly one row, and the hour of every input row is among the
    labels. *)
Theorem returned_index_is_contiguous :
  forall (r0 : row) (rest : DataFrame),
  has_duplicates (map start_time (r0 :: rest)) = false ->
  (forall r, In r (r0 :: rest) -> org_name r <> None) ->
  floor_hour (earliest r0 rest) = earliest r0 rest
  \/ floor_hour (earliest r0 rest) < floor_hour (latest r0 rest) ->
  exists t,
    resample relabel (r0 :: rest) = Return t
    /\ let idx := map start_time t in
       let lo := earliest r0 rest in
       let hi := latest r0 rest in
       idx = map (fun i => floor_hour lo + hour * Z.of_nat i) (seq 0 (List.length idx))
       /\ NoDup idx
       /\ (forall H, In H idx <-> floor_hour H = H /\ floor_hour lo <= H <= floor_hour hi)
       /\ (forall H, floor_hour H = H -> floor_hour lo <= H <= floor_hour hi ->
                     count_occ Z.eq_dec idx H = 1%nat)
       /\ (forall r, In r (r0 :: rest) ->
                     lo <= start_time r <= hi /\ In (floor_hour (start_time r)) idx)
       /\ In lo (map start_time (r0 :: rest))
       /\ In hi (map start_time (r0 :: rest)).
Proof.
  intros r0 rest Hd Ho Hreach.
  destruct (resample_yields r0 rest Hd Ho Hreach) as [t Ht].
  exists t. split; [exact Ht|]. exact (resample_index r0 rest t Ht).
Qed.

(* ================================================================== *)
(** ** Gaps in the resampled frame, and the chart titles *)
(* ================================================================== *)

(** Below a cell with a value no cell of the filled column is missing. *)
Lemma ffill_col_stays {A : Type} (l : list (option A)) :
  forall p i j a b,
  nth_error (ffill_col p l) i = Some a -> a <> None -> (i <= j)%nat ->
  nth_error (ffill_col p l) j = Some b -> b <> None.
Proof.
  induction l as [|c l IH]; intros p i j a b Hi Ha Hij Hj;
    cbn [ffill_col] in *; [now destruct i|].
  destruct i as [|i], j as [|j]; cbn [nth_error] in *; try lia.
  - congruence.
  - injection Hi as <-. apply nth_error_In in Hj.
    exact (ffill_col_prev_some _ _ _ Ha Hj).
  - apply (IH (fill p c) i j a b); auto. lia.
Qed.

(** A missing cell takes the value of the cell above. *)
Lemma ffill_col_carry {A : Type} (l : list (option A)) :
  forall p i a,
  nth_error l (S i) = Some None ->
  nth_error (ffill_col p l) i = Some a ->
  nth_error (ffill_col p l) (S i) = Some a.
Proof.
  induction l as [|c l IH]; intros p i a Hn Hi; [discriminate|].
  cbn [ffill_col nth_error] in *. destruct i as [|i].
  - injection Hi as <-. destruct l as [|c' l]; [discriminate|].
    cbn [nth_error] in Hn. injection Hn as ->. reflexivity.
  - now apply IH.
Qed.

(** X9. In the frame the resampling returns a gap can only lead a
    column: once a row has an energy, a cost or a source, every later row
    has one too. *)
Theorem gaps_are_only_leading :
  forall (r0 : row) (rest t : DataFrame) (i j : nat) (x y : row),
  resample relabel (r0 :: rest) = Return t ->
  nth_error t i = Some x ->
  nth_error t j = Some y ->
  (i <= j)%nat ->
  (energy_kwh x <> None -> energy_kwh y <> None)
  /\ (cost x <> None -> cost y <> None)
  /\ (source x <> None -> source y <> None).
Proof.
  intros r0 rest t i j x y H Hx Hy Hij.
  destruct (resample_columns r0 rest t H)
    as [cats [name [_ [_ [_ [C2 [C3 [C4 _]]]]]]]].
  pose proof (map_nth_error energy_kwh _ _ Hx) as Ex.
  pose proof (map_nth_error energy_kwh _ _ Hy) as Ey.
  pose proof (map_nth_error cost _ _ Hx) as Cx.
  pose proof (map_nth_error cost _ _ Hy) as Cy.
  pose proof (map_nth_error source _ _ Hx) as Sx.
  pose proof (map_nth_error source _ _ Hy) as Sy.
  rewrite C2 in Ex, Ey. rewrite C4 in Cx, Cy. rewrite C3 in Sx, Sy.
  split; [|split]; intros Hv.
  - exact (ffill_col_stays _ _ _ _ _ _ Ex Hv Hij Ey).
  - exact (ffill_col_stays _ _ _ _ _ _ Cx Hv Hij Cy).
  - exact (ffill_col_stays _ _ _ _ _ _ Sx Hv Hij Sy).
Qed.

(** X10. Consecutive rows of the resampled frame are one hour apart, and
    the row of an hour in which no input row carries an energy (a cost)
    repeats the energy (the cost) of the row before it. *)
Theorem empty_hour_repeats_previous_value :
  forall (r0 : row) (rest t : DataFrame) (i : nat) (x y : row),
  resample relabel (r0 :: rest) = Return t ->
  nth_error t i = Some x ->
  nth_error t (S i) = Some y ->
  start_time y = start_time x + hour
  /\ (present energy_kwh (filter (in_bucket (start_time y)) (r0 :: rest)) = [] ->
      energy_kwh y = energy_kwh x)
  /\ (present cost (filter (in_bucket (start_time y)) (r0 :: rest)) = [] ->
      cost y = cost x).
Proof.
  intros r0 rest t i x y H Hx Hy.
  destruct (resample_columns r0 rest t H)
    as [cats [name [_ [_ [C1 [C2 [_ [C4 _]]]]]]]].
  pose proof (map_nth_error start_time _ _ Hx) as Lx.
  pose proof (map_nth_error start_time _ _ Hy) as Ly.
  rewrite C1 in Lx, Ly.
  pose proof (map_nth_error energy_kwh _ _ Hx) as Ex.
  pose proof (map_nth_error energy_kwh _ _ Hy) as Ey.
  pose proof (map_nth_error cost _ _ Hx) as Cx.
  pose proof (map_nth_error cost _ _ Hy) as Cy.
  rewrite C2 in Ex, Ey. rewrite C4 in Cx, Cy.
  split; [|split].
  - destruct (hour_labels_nth _ _ _ _ Lx) as [-> _].
    destruct (hour_labels_nth _ _ _ _ Ly) as [-> _]. lia.
  - intros Hempty.
    pose proof (map_nth_error (resample_mean energy_kwh (r0 :: rest)) _ _ Ly) as N.
    unfold resample_mean at 2 in N. rewrite Hempty in N. cbn [mean] in N.
    rewrite (ffill_col_carry _ _ _ _ N Ex) in Ey. congruence.
  - intros Hempty.
    pose proof (map_nth_error (resample_mean cost (r0 :: rest)) _ _ Ly) as N.
    unfold resample_mean at 2 in N. rewrite Hempty in N. cbn [mean] in N.
    rewrite (ffill_col_carry _ _ _ _ N Cx) in Cy. congruence.
Qed.

(** X11. For rows the resampling returned a frame for, the chart of
    each handler is titled ["Energy Consumption - "] followed by the
    organisation name the frame carries, which is the name of some input
    row, whatever identifier was requested. *)
Theorem title_names_the_organisation :
  forall (r0 : row) (rest t : DataFrame),
  resample relabel (r0 :: rest) = Return t ->
  exists name,
    (exists r, In r (r0 :: rest) /\ org_name r = Some name)
    /\ forall (build : value -> DataFrame -> figure * DataFrame) (org_id : value),
       In build [energy_figure; cost_figure; summary_figure] ->
       title (fst (build org_id t)) = ("Energy Consumption - " ++ name)%string.
Proof.
  intros r0 rest t H.
  destruct (org_name_constant r0 rest t H) as [name [_ [_ [_ [Hr Hall]]]]].
  destruct (resample_columns r0 rest t H) as [_ [_ [_ [_ [C1 _]]]]].
  rewrite hour_labels_cons in C1.
  destruct t as [|x0 t']; [discriminate|].
  exists name. split; [exact Hr|].
  intros build org_id [<-|[<-|[<-|[]]]]; cbn [fst title energy_figure cost_figure
    summary_figure]; unfold chart_title; now rewrite (Hall x0 (or_introl eq_refl)).
Qed.

(* ================================================================== *)
(** ** The order of strings *)
(* ================================================================== *)

Lemma string_compare_OT (s t : string) :
  String.compare s t = String_as_OT.compare s t.
Proof. reflexivity. Qed.

Lemma string_compare_refl (s : string) : String.compare s s = Eq.
Proof.
  pose proof (String.compare_antisym s s) as H.
  destruct (String.compare s s); try reflexivity; discriminate.
Qed.

Lemma string_compare_trans (s t u : string) :
  String.compare s t = Lt -> String.compare t u = Lt -> String.compare s u = Lt.
Proof.
  rewrite !string_compare_OT. apply String_as_OT.lt_strorder.
Qed.

(* ================================================================== *)
(** ** Which row a label shows, and which name the frame gets *)
(* ================================================================== *)

(** X13. Unless pandas kept the input rows as they came (pandas 2,
    rows exactly one hour apart), the row of a label shows the
    source of the last input row at or before the label, whatever rows
    fall into the hour the label starts: a reading made within an hour
    shows from the next label on. *)
Theorem label_shows_last_row_at_or_before :
  forall (pre post t : DataFrame) (r x : row) (v : string),
  resample relabel (pre ++ r :: post) = Return t ->
  relabel && inferred_hourly (map start_time (pre ++ r :: post)) = false ->
  In x t ->
  start_time r <= start_time x ->
  (forall r', In r' post -> start_time x < start_time r') ->
  source r = Some v ->
  source x = Some v.
Proof.
  intros pre post t r x v H Hh Hx Hle Hpost Hv.
  destruct (nonempty_cons pre post r) as [r0 [rest Hdf]].
  rewrite Hdf in H.
  destruct (row_at r0 rest t x H Hx) as [i [cats [nm [Hc [_ [HL [_ [Hs _]]]]]]]].
  rewrite <- Hdf in Hc.
  rewrite (resample_ffill_reindexed _ _ _ Hc Hh) in Hs.
  assert (Hi : nth_error
                 (map fst
                    (map (fun L => match pad L (pre ++ r :: post) with
                                   | Some r1 => (source r1, org_name r1)
                                   | None => (None, None)
                                   end)
                         (hour_labels (earliest r0 rest) (latest r0 rest)))) i
               = Some (Some v)).
  { rewrite map_map. erewrite map_nth_error by exact HL.
    rewrite (pad_last (start_time x) pre post r Hle Hpost). cbn [fst].
    now rewrite Hv. }
  rewrite (ffill_col_nth_some _ _ _ _ Hi) in Hs. congruence.
Qed.

(** Of the values that occur as often as the mode, none sorts before
    it. *)
Lemma mode0_first_of_ties (col : list (option string)) (name : string) :
  mode0 col = Return name ->
  forall w, In (Some w) col ->
  count w (dropna col) = count name (dropna col) ->
  String.compare name w <> Gt.
Proof.
  unfold mode0. set (l := dropna col).
  set (ok := fun b w => (count w l < count b l)%nat
                        \/ (count w l = count b l /\ String.compare b w <> Gt)).
  assert (Hf : forall l1 init m,
             fold_left (fun best x =>
                          match best with
                          | None => Some x
                          | Some b => if better l x b then Some x else best
                          end) l1 init = Some m ->
             (forall b, init = Some b -> ok m b)
             /\ (forall w, In w l1 -> ok m w)).
  { induction l1 as [|a l1 IH]; intros init m H.
    - cbn [fold_left] in H. split; [|intros w []].
      intros b Hb. rewrite H in Hb. injection Hb as ->.
      right. split; [reflexivity|]. rewrite string_compare_refl. discriminate.
    - cbn [fold_left] in H. apply IH in H. destruct H as [H1 H2].
      destruct init as [b|].
      + unfold better in H1.
        destruct (Nat.ltb_spec (count b l) (count a l)) as [Hlt|Hge]; cbn [orb] in H1.
        * specialize (H1 a eq_refl). split.
          -- intros b' [= <-]. left. destruct H1 as [H1|[H1 _]]; lia.
          -- intros w [<-|Hw]; [exact H1|auto].
        * destruct (Nat.eqb_spec (count a l) (count b l)) as [Eq|Ne]; cbn [andb] in H1.
          -- unfold String.ltb in H1.
             destruct (String.compare a b) eqn:Ec.
             ++ apply String.compare_eq_iff in Ec. subst b.
                specialize (H1 a eq_refl). split.
                ** now intros b' [= <-].
                ** intros w [<-|Hw]; [exact H1|auto].
             ++ specialize (H1 a eq_refl). split.
                ** intros b' [= <-]. destruct H1 as [H1|[H1 H1']].
                   --- left. lia.
                   --- right. split; [lia|].
                       destruct (String.compare m a) eqn:Em; try contradiction.
                       +++ apply String.compare_eq_iff in Em. subst m.
                           rewrite Ec. discriminate.
                       +++ rewrite (string_compare_trans m a b Em Ec). discriminate.
                ** intros w [<-|Hw]; [exact H1|auto].
             ++ specialize (H1 b eq_refl). split.
                ** now intros b' [= <-].
                ** intros w [<-|Hw]; [|auto].
                   destruct H1 as [H1|[H1 H1']].
                   --- left. lia.
                   --- right. split; [lia|].
                       assert (Eba : String.compare b a = Lt).
                       { rewrite String.compare_antisym, Ec. reflexivity. }
                       destruct (String.compare m b) eqn:Em; try contradiction.
                       +++ apply String.compare_eq_iff in Em. subst m.
                           rewrite Eba. discriminate.
                       +++ rewrite (string_compare_trans m b a Em Eba). discriminate.
          -- specialize (H1 b eq_refl). split.
             ++ now intros b' [= <-].
             ++ intros w [<-|Hw]; [|auto].
                destruct H1 as [H1|[H1 _]]; left; lia.
      + specialize (H1 a eq_refl). split; [discriminate|].
        intros w [<-|Hw]; [exact H1|auto]. }
  destruct (fold_left _ l None) as [m|] eqn:E; [|discriminate].
  intros [= <-] w Hw Hc. apply Hf in E. destruct E as [_ E].
  assert (Hin : In w l).
  { apply in_flat_map. exists (Some w). split; [exact Hw|now left]. }
  destruct (E w Hin) as [Hlt|[_ Hle]]; [lia|exact Hle].
Qed.

(** X14. The name written into every row of the resampled frame is the
    [mode()[0]] of the forward-filled name column of the upsampled frame:
    no name occurs in more rows, and of the names that occur in as many
    rows none sorts before it. *)
Theorem normalised_name_is_first_of_most_frequent :
  forall (r0 : row) (rest t : DataFrame),
  resample relabel (r0 :: rest) = Return t ->
  exists name cats,
    resample_ffill relabel (r0 :: rest) (resample_labels (r0 :: rest)) = Return cats
    /\ (forall y, In y t -> org_name y = Some name)
    /\ forall w,
         (count w (dropna (ffill_col None (map snd cats)))
          <= count name (dropna (ffill_col None (map snd cats))))%nat
         /\ (In (Some w) (ffill_col None (map snd cats)) ->
             count w (dropna (ffill_col None (map snd cats)))
             = count name (dropna (ffill_col None (map snd cats))) ->
             String.compare name w <> Gt).
Proof.
  intros r0 rest t H.
  destruct (resample_columns r0 rest t H) as [cats [name [Hc [Hm [_ [_ [_ [_ C5]]]]]]]].
  exists name, cats. split; [exact Hc|]. split.
  - intros y Hy. apply (in_map org_name) in Hy. rewrite C5 in Hy.
    apply in_map_iff in Hy. destruct Hy as [L [E _]]. now symmetry.
  - intros w. split.
    + now apply mode0_most_frequent.
    + now apply mode0_first_of_ties.
Qed.

End AnyPandas.

(* ================================================================== *)
(** ** The theorems at concrete requests and record sets *)
(* ================================================================== *)

(** C2 (counterexample). With the capacity of 32 that [get_db_data] has:
    after organisations 1 to 32 were fetched, 1 fetched again and then 33,
    the entry of organisation 1, the oldest inserted one, is still stored
    and the entry of organisation 2 is gone; evicting the oldest inserted
    entry would have dropped 1 and kept 2. *)
Lemma oldest_inserted_entry_survives :
  let st := requests false thirty_four_calls (empty (list value) DataFrame) in
  let fifo := fifo_run args_eqb maxsize
                (map (fun c => ([fst c], get_db_data_body false (snd c))) thirty_four_calls)
                [] in
  cache_get args_eqb [PyInt 1] (entries st) = Some []
  /\ cache_get args_eqb [PyInt 2] (entries st) = None
  /\ cache_get args_eqb [PyInt 1] fifo = None
  /\ cache_get args_eqb [PyInt 2] fifo = Some [].
Proof. vm_compute. repeat split. Qed.

Lemma lru_evicts_least_recently_used_witness :
  keys (run args_eqb 32
            (map (fun c => (fst c, Return (snd c)))
                 [([PyInt 1], []); ([PyInt 2], []); ([PyInt 1], [])])
            (empty (list value) DataFrame))
  = [[PyInt 1]; [PyInt 2]]
  /\ cache_get args_eqb [PyStr "A"]
       (entries (run args_eqb 2
                  [([PyStr "A"], Return []); ([PyStr "B"], Return []);
                   ([PyStr "C"], Return [])]
                  (empty (list value) DataFrame))) = None.
Proof.
  destruct (@lru_evicts_least_recently_used 32
              [([PyInt 1], []); ([PyInt 2], []); ([PyInt 1], [])]
              [PyStr "A"] [PyStr "B"] [PyStr "C"] [] [] [])
    as [H1 [H2 _]]; try discriminate.
  split; [exact H1|exact H2].
Defined.


Lemma str_and_int_keys_never_share_an_entry_witness :
  let to_html := fun _ : figure => Return "<div></div>" in
  let st2 := snd (energy_summary false to_html 5 (Return [])
                    (snd (energy_consumption false to_html "5" (Return [])
                            (empty (list value) DataFrame)))) in
  cache_get args_eqb [PyStr "5"] (entries st2) = Some []
  /\ cache_get args_eqb [PyInt 5] (entries st2) = Some []
  /\ misses st2 = 2%nat.
Proof.
  cbv zeta.
  destruct (@str_and_int_keys_never_share_an_entry false
              (fun _ : figure => Return "<div></div>") "5" 5 (Return []) (Return [])
              (empty (list value) DataFrame) eq_refl eq_refl)
    as [_ [_ [_ [H1 H2]]]].
  split; [exact H1|]. split; [exact H2|]. reflexivity.
Defined.


Example resample_morning :
  forall relabel : bool, resample relabel morning = Return morning_resampled.
Proof. intros [|]; vm_compute; reflexivity. Qed.


Example resample_two_readings :
  forall relabel : bool, resample relabel two_readings = Return two_readings_resampled.
Proof. intros [|]; vm_compute; reflexivity. Qed.

(** The single reading of 10:05 is a record set that is not empty, and
    neither pandas makes a table of it. *)
Lemma single_record_has_no_output_table_witness :
  single_reading <> []
  /\ resample_labels single_reading = [clock 10 0]
  /\ resample true single_reading = Raise (Exception "0")
  /\ resample false single_reading = Raise (Exception "0")
  /\ get_db_data_body false (Return single_reading)
     = Raise (HTTPException 500 "Database error: 0").
Proof.
  assert (Hoff : floor_hour (start_time (reading (clock 10 5) 2 "solar" 1 "Acme"))
                 <> start_time (reading (clock 10 5) 2 "solar" 1 "Acme"))
    by (vm_compute; discriminate).
  destruct (single_record_has_no_output_table true
              (reading (clock 10 5) 2 "solar" 1 "Acme") Hoff) as [_ [_ [Ht _]]].
  destruct (single_record_has_no_output_table false
              (reading (clock 10 5) 2 "solar" 1 "Acme") Hoff) as [Hne [Hl [Hf Hb]]].
  split; [exact Hne|]. split; [exact Hl|]. split; [exact Ht|].
  split; [exact Hf|exact Hb].
Defined.

Lemma mean_of_the_example_is_not_returned_witness :
  resample_mean energy_kwh one_hour (clock 10 0) = Some 3%Q
  /\ resample false one_hour = Raise (Exception "0")
  /\ fst (energy_consumption false (fun _ => Return "<div></div>") "acme"
            (Return one_hour) (empty (list value) DataFrame))
     = HTTP 400 "500: Database error: 0".
Proof.
  destruct (mean_of_the_example_is_not_returned false
              (fun _ => Return "<div></div>") (GetEnergy "acme")
              (empty (list value) DataFrame) eq_refl)
    as [_ [Hm [Hr [_ [Hg _]]]]].
  split; [exact Hm|]. split; [exact Hr|exact Hg].
Defined.



(** C9 (counterexample). For readings at 10:05 and 11:10 the pipeline
    returns a frame whose first row, the hour of 10:00, has no source. *)
Lemma first_row_has_no_source :
  get_db_data_body true (Return two_readings) = Return two_readings_resampled
  /\ get_db_data_body false (Return two_readings) = Return two_readings_resampled
  /\ nth_error (map (fun x => (start_time x, source x)) two_readings_resampled) 0
     = Some (clock 10 0, None).
Proof. vm_compute. repeat split. Qed.

Lemma only_first_source_cell_can_be_unset_witness :
  resample false two_readings = Return two_readings_resampled
  /\ exists x0 t',
       two_readings_resampled = x0 :: t'
       /\ start_time x0 = clock 10 0
       /\ source x0 = None
       /\ forall x, In x t' -> source x <> None.
Proof.
  split; [apply resample_two_readings|].
  destruct (only_first_source_cell_can_be_unset false
              (reading (clock 10 5) 2 "solar" 1 "Acme")
              [ reading (clock 11 10) 4 "solar" 3 "Acme" ]
              two_readings_resampled)
    as [x0 [t' [E [Hi [_ [Hs [_ H0]]]]]]].
  - intros r [<-|[<-|[]]]; repeat split; discriminate.
  - apply resample_two_readings.
  - exists x0, t'. split; [exact E|]. split; [exact Hi|]. split; [|exact Hs].
    apply H0; [vm_compute; discriminate|reflexivity].
Defined.

Lemma store_failure_answers_400_witness :
  fst (energy_consumption false (fun _ => Return "<div></div>") "acme"
         (Raise (Exception "connection refused"))
         (empty (list value) DataFrame))
  = HTTP 400 "500: Database error: connection refused".
Proof.
  exact (proj1 (proj2 (store_failure_answers_400 false
                         (fun _ => Return "<div></div>") (GetEnergy "acme")
                         "connection refused" (empty (list value) DataFrame)
                         eq_refl))).
Defined.

(** A failure of the resampling leaves [get_db_data] as a database error
    too: a single reading at 10:05 has no categorical value at the label
    10:00, [mode()[0]] raises, and the client gets status 400 with the
    text of the wrapping [HTTPException(500)]. *)
Example resampling_failure_is_reported_as_database_error :
  forall relabel : bool,
  get_db_data_body relabel (Return single_reading)
  = Raise (HTTPException 500 "Database error: 0")
  /\ fst (energy_consumption relabel (fun _ => Return "<div></div>") "acme"
            (Return single_reading) (empty (list value) DataFrame))
     = HTTP 400 "500: Database error: 0".
Proof. intros [|]; vm_compute; split; reflexivity. Qed.

(** A failure of the rendering is answered with status 400 and the text
    of the exception. *)
Example rendering_failure_is_answered_400 :
  forall relabel : bool,
  fst (energy_consumption relabel (fun _ => Raise (Exception "bad column")) "acme"
         (Return []) (empty (list value) DataFrame))
  = HTTP 400 "bad column".
Proof. intros relabel. reflexivity. Qed.

Lemma failure_is_not_cached_witness :
  fst (get_db_data false (PyStr "7") (Return morning)
         (snd (get_db_data false (PyStr "7") (Raise (Exception "connection lost"))
                 (empty (list value) DataFrame))))
  = Return morning_resampled.
Proof.
  destruct (failure_is_not_cached false (PyStr "7")
              (Raise (Exception "connection lost"))
              (Return morning) (empty (list value) DataFrame)
              (HTTPException 500 "Database error: connection lost") eq_refl)
    as [_ H].
  rewrite H. vm_compute. reflexivity.
Defined.

Lemma cache_hit_keeps_every_entry_witness :
  let st := mk_state [([PyStr "7"], morning_resampled); ([PyInt 8], [])] 0 2 in
  cache_get args_eqb [PyInt 8]
    (entries (snd (energy_cost false (fun _ => Return "<div></div>") "7"
                     (Raise (Exception "down")) st)))
  = Some [].
Proof.
  cbv zeta.
  exact (proj1 (cache_hit_keeps_every_entry false
                  (fun _ => Return "<div></div>") (GetCost "7")
                  (Raise (Exception "down"))
                  (mk_state [([PyStr "7"], morning_resampled); ([PyInt 8], [])] 0 2)
                  morning_resampled eq_refl) [PyInt 8]).
Defined.

Lemma no_eviction_below_capacity_witness :
  let st := mk_state [([PyStr "7"], morning_resampled)] 0 1 in
  cache_get args_eqb [PyStr "7"]
    (entries (snd (energy_summary false (fun _ => Return "<div></div>") 7
                     (Return two_readings) st)))
  = Some morning_resampled.
Proof.
  cbv zeta.
  apply (no_eviction_below_capacity false (fun _ => Return "<div></div>")
           (GetSummary 7) (Return two_readings)
           (mk_state [([PyStr "7"], morning_resampled)] 0 1)
           [PyStr "7"] morning_resampled).
  - cbn. lia.
  - reflexivity.
Defined.

Lemma duplicate_timestamps_raise_witness :
  get_db_data_body false (Return same_instant)
  = Raise (HTTPException 500
             "Database error: cannot reindex on an axis with duplicate labels").
Proof.
  exact (proj2 (duplicate_timestamps_raise false
                  (reading (clock 10 0) 2 "grid" 1 "Acme")
                  [reading (clock 10 0) 1 "solar" 0 "Acme"] eq_refl)).
Defined.

Lemma readings_within_one_hour_raise_witness :
  get_db_data_body false
    (Return [ reading (clock 10 5) 2 "solar" 1 "Acme";
              reading (clock 10 40) 4 "solar" 1 "Acme" ])
  = Raise (HTTPException 500 "Database error: 0").
Proof.
  refine (proj2 (readings_within_one_hour_raise false
                   (reading (clock 10 5) 2 "solar" 1 "Acme")
                   [reading (clock 10 40) 4 "solar" 1 "Acme"] eq_refl _ _)).
  - vm_compute. reflexivity.
  - vm_compute. discriminate.
Defined.

Lemma resample_returns_witness :
  exists t, resample false two_readings = Return t.
Proof.
  apply (resample_returns false (reading (clock 10 5) 2 "solar" 1 "Acme")
           [reading (clock 11 10) 4 "solar" 3 "Acme"]).
  - reflexivity.
  - intros r [<-|[<-|[]]]; discriminate.
  - right. vm_compute. reflexivity.
Defined.

(** The four readings of the morning give the four rows of 9:00 to
    12:00. *)
Lemma returned_index_is_contiguous_witness :
  exists t,
    resample false morning = Return t
    /\ map start_time t = [clock 9 0; clock 10 0; clock 11 0; clock 12 0]
    /\ NoDup (map start_time t).
Proof.
  destruct (returned_index_is_contiguous false
              (reading (clock 9 0) 1 "solar" (1 # 2) "Acme")
              [ reading (clock 10 5) 2 "grid" (3 # 2) "Acme";
                reading (clock 10 40) 4 "grid" (5 # 2) "Acme";
                reading (clock 12 20) 3 "wind" 1 "Acme" ])
    as [t [Ht [_ [Hn _]]]].
  - reflexivity.
  - intros r [<-|[<-|[<-|[<-|[]]]]]; discriminate.
  - left. vm_compute. reflexivity.
  - exists t. split; [exact Ht|]. split; [|exact Hn].
    fold morning in Ht. rewrite resample_morning in Ht. injection Ht as <-.
    reflexivity.
Defined.

Lemma gaps_are_only_leading_witness :
  resample false morning = Return morning_resampled
  /\ nth_error morning_resampled 3 = Some (reading (clock 12 0) 3 "grid" 1 "Acme")
  /\ source (reading (clock 12 0) 3 "grid" 1 "Acme") <> None.
Proof.
  split; [apply resample_morning|]. split; [reflexivity|].
  apply (proj2 (proj2 (gaps_are_only_leading false
                         (reading (clock 9 0) 1 "solar" (1 # 2) "Acme")
                         [ reading (clock 10 5) 2 "grid" (3 # 2) "Acme";
                           reading (clock 10 40) 4 "grid" (5 # 2) "Acme";
                           reading (clock 12 20) 3 "wind" 1 "Acme" ]
                         morning_resampled 1 3
                         (reading (clock 10 0) 3 "solar" 2 "Acme")
                         (reading (clock 12 0) 3 "grid" 1 "Acme")
                         (resample_morning false) eq_refl eq_refl
                         (le_S _ _ (le_S _ _ (le_n 1)))))).
  discriminate.
Defined.

Lemma empty_hour_repeats_previous_value_witness :
  resample false morning = Return morning_resampled
  /\ energy_kwh (reading (clock 11 0) 3 "grid" 2 "Acme")
     = energy_kwh (reading (clock 10 0) 3 "solar" 2 "Acme").
Proof.
  split; [apply resample_morning|].
  refine (proj1 (proj2 (empty_hour_repeats_previous_value false
                          (reading (clock 9 0) 1 "solar" (1 # 2) "Acme")
                          [ reading (clock 10 5) 2 "grid" (3 # 2) "Acme";
                            reading (clock 10 40) 4 "grid" (5 # 2) "Acme";
                            reading (clock 12 20) 3 "wind" 1 "Acme" ]
                          morning_resampled 1
                          (reading (clock 10 0) 3 "solar" 2 "Acme")
                          (reading (clock 11 0) 3 "grid" 2 "Acme")
                          (resample_morning false) eq_refl eq_refl)) _).
  vm_compute. reflexivity.
Defined.

Lemma title_names_the_organisation_witness :
  resample false morning = Return morning_resampled
  /\ exists name,
       In (Some name) (map org_name morning)
       /\ title (fst (cost_figure (PyStr "7") morning_resampled))
          = ("Energy Consumption - " ++ name)%string.
Proof.
  split; [apply resample_morning|].
  destruct (title_names_the_organisation false
              (reading (clock 9 0) 1 "solar" (1 # 2) "Acme")
              [ reading (clock 10 5) 2 "grid" (3 # 2) "Acme";
                reading (clock 10 40) 4 "grid" (5 # 2) "Acme";
                reading (clock 12 20) 3 "wind" 1 "Acme" ]
              morning_resampled (resample_morning false))
    as [name [[r [Hr Hn]] E]].
  exists name. split.
  - rewrite <- Hn. now apply in_map.
  - apply (E cost_figure (PyStr "7")). right. now left.
Defined.

(** The row of 10:00 shows "solar", the source of the reading of 9:00,
    though both readings of that hour name "grid". *)
Lemma label_shows_last_row_at_or_before_witness :
  resample false morning = Return morning_resampled
  /\ nth_error morning_resampled 1 = Some (reading (clock 10 0) 3 "solar" 2 "Acme")
  /\ source (reading (clock 10 0) 3 "solar" 2 "Acme") = Some "solar".
Proof.
  split; [apply resample_morning|]. split; [reflexivity|].
  apply (label_shows_last_row_at_or_before false
           []
           [ reading (clock 10 5) 2 "grid" (3 # 2) "Acme";
             reading (clock 10 40) 4 "grid" (5 # 2) "Acme";
             reading (clock 12 20) 3 "wind" 1 "Acme" ]
           morning_resampled
           (reading (clock 9 0) 1 "solar" (1 # 2) "Acme")
           (reading (clock 10 0) 3 "solar" 2 "Acme")
           "solar" (resample_morning false) eq_refl
           (or_intror (or_introl eq_refl))).
  - vm_compute. discriminate.
  - intros r' [<-|[<-|[<-|[]]]]; vm_compute; reflexivity.
  - reflexivity.
Defined.

Lemma normalised_name_is_first_of_most_frequent_witness :
  exists name cats,
    resample_ffill false relabelled (resample_labels relabelled) = Return cats
    /\ (forall y, In y relabelled_resampled -> org_name y = Some name)
    /\ (count "Alpha" (dropna (ffill_col None (map snd cats)))
        <= count name (dropna (ffill_col None (map snd cats))))%nat.
Proof.
  destruct (normalised_name_is_first_of_most_frequent false
              (reading (clock 9 0) 1 "solar" 1 "Alpha")
              [ reading (clock 11 0) 1 "solar" 1 "Beta";
                reading (clock 12 0) 1 "solar" 1 "Beta";
                reading (clock 13 30) 1 "solar" 1 "Beta" ]
              relabelled_resampled)
    as [name [cats [Hc [Hall Hw]]]].
  - vm_compute. reflexivity.
  - exists name, cats. split; [exact Hc|]. split; [exact Hall|].
    exact (proj1 (Hw "Alpha")).
Defined.
